(** * extract-docs: extraction of doxygen blocks from mojom files

    A shallow embedding of [utils/ipc/extract-docs.py] and the proofs of the
    properties its specification states.

    The script reads the lines of a mojom file, copies every block that
    starts with a line [/**] and ends with a line [ */] into a generated
    [.cpp] documentation file, between a fixed header and a fixed footer,
    and raises [SyntaxError] when a block is opened inside another one. *)

From Stdlib Require Import String Ascii List Bool Arith Lia ZArith.
Import ListNotations.

Open Scope list_scope.
Open Scope string_scope.

(** ** Characters

    A Python [str] is modelled by a [string]: the sequence of the bytes of
    its UTF-8 encoding.  The script looks at the characters ['/'], ['*'],
    [' '], ['.'] and the newline only, which are one byte each. *)

(** The line terminator, ['\n'], and the carriage return, ['\r']. *)
Definition nl : ascii := "010"%char.
Definition cr : ascii := "013"%char.

(** The one-character string ['\n']. *)
Definition NL : string := String nl "".

(** ** The part of Python's [str] the script uses *)

Module Str.

(** [old] is a prefix of [s] (the test [s.startswith(old)]). *)
Fixpoint startswith (old s : string) : bool :=
  match old, s with
  | "", _ => true
  | String _ _, "" => false
  | String a old', String b s' => Ascii.eqb a b && startswith old' s'
  end.

(** [s.endswith(suf)]. *)
Fixpoint endswith (suf s : string) : bool :=
  String.eqb suf s ||
  match s with
  | "" => false
  | String _ s' => endswith suf s'
  end.

(** [s.split(sep)] for a separator of one character: the pieces of [s]
    between the occurrences of [sep]; never the empty list. *)
Fixpoint split (sep : ascii) (s : string) : list string :=
  match s with
  | "" => [""]
  | String c r =>
      if Ascii.eqb c sep then "" :: split sep r
      else match split sep r with
           | h :: t => String c h :: t
           | [] => [String c ""]
           end
  end.

(** [l[-1]] on a list that is not empty ([split] never returns an empty
    one); the default is never reached from [main]. *)
Definition last_item (l : list string) : string := last l "".

(** [s.replace(old, new)] for a non-empty [old]: the occurrences of [old]
    are found from left to right and do not overlap; [skip] counts the
    characters of an occurrence still to be dropped. *)
Fixpoint replace_from (old new : string) (skip : nat) (s : string) : string :=
  match s with
  | "" => ""
  | String c r =>
      match skip with
      | S k => replace_from old new k r
      | O =>
          if startswith old s
          then new ++ replace_from old new (String.length old - 1) r
          else String c (replace_from old new 0 r)
      end
  end.

Definition replace (old new s : string) : string := replace_from old new 0 s.

(** Some occurrence of [old] lies in [s] ([old in s]). *)
Fixpoint contains (old s : string) : bool :=
  startswith old s ||
  match s with
  | "" => false
  | String _ s' => contains old s'
  end.

(** The concatenation of a list of strings ([''.join(l)]). *)
Fixpoint join (l : list string) : string :=
  match l with
  | [] => ""
  | s :: l' => s ++ join l'
  end.

End Str.

(** ** The part of Python's [re] the script uses

    Both patterns of the script are sequences of anchors and escaped
    literal characters.  [compile] reads such a pattern; [re_match] is
    [Pattern.match]: the pattern is tried at the start of the subject only,
    and need not consume all of it. *)

Module Re.

Inductive item : Type :=
| Bol               (* ^ *)
| Eol               (* $ *)
| Lit (c : ascii).  (* a literal character *)

Definition pattern : Type := list item.

(** A character that a backslash turns into itself. *)
Definition is_punct (c : ascii) : bool :=
  let n := nat_of_ascii c in
  (((33 <=? n) && (n <=? 47)) || ((58 <=? n) && (n <=? 64)) ||
   ((91 <=? n) && (n <=? 96)) || ((123 <=? n) && (n <=? 126)))%nat.

(** A character with a meaning of its own in a pattern. *)
Definition is_meta (c : ascii) : bool :=
  existsb (Ascii.eqb c)
    ["."; "^"; "$"; "*"; "+"; "?"; "{"; "}"; "["; "]"; "\"; "|"; "("; ")"]%char.

(** The patterns made of [^], [$], escaped punctuation and plain
    characters; [None] on anything else. *)
Fixpoint compile (s : string) : option pattern :=
  match s with
  | "" => Some []
  | String c r =>
      if Ascii.eqb c "^" then option_map (cons Bol) (compile r)
      else if Ascii.eqb c "$" then option_map (cons Eol) (compile r)
      else if Ascii.eqb c "\" then
        match r with
        | String d r' =>
            if is_punct d then option_map (cons (Lit d)) (compile r') else None
        | "" => None
        end
      else if is_meta c then None
      else option_map (cons (Lit c)) (compile r)
  end.

(** [$] without [re.MULTILINE]: the end of the subject, or just before a
    newline that is its last character. *)
Definition at_end (s : string) : bool :=
  String.eqb s "" || String.eqb s NL.

(** [match_here p start s]: [p] matches at the current position, where [s]
    is the rest of the subject and [start] tells whether the position is
    the start of the subject. *)
Fixpoint match_here (p : pattern) (start : bool) (s : string) : bool :=
  match p with
  | [] => true
  | Bol :: p' => start && match_here p' start s
  | Eol :: p' => at_end s && match_here p' start s
  | Lit c :: p' =>
      match s with
      | String d r => Ascii.eqb c d && match_here p' false r
      | "" => false
      end
  end.

Definition re_match (p : pattern) (s : string) : bool := match_here p true s.

End Re.

(** ** The script *)

(** [regex_block_start = re.compile('^\/\*\*$')] *)
Definition regex_block_start : Re.pattern :=
  match Re.compile "^\/\*\*$" with Some p => p | None => [] end.

(** [regex_block_end = re.compile('^ \*\/$')] *)
Definition regex_block_end : Re.pattern :=
  match Re.compile "^ \*\/$" with Some p => p | None => [] end.

(** [open(args.input, 'r').readlines()] on a file of content [content]: text
    mode translates ['\r\n'] and a lone ['\r'] to ['\n'], and every line keeps
    its ['\n']; only the last line can be without one. *)
Fixpoint universal_newlines (s : string) : string :=
  match s with
  | "" => ""
  | String c r =>
      if Ascii.eqb c cr then
        match r with
        | String d r' =>
            if Ascii.eqb d nl then String nl (universal_newlines r')
            else String nl (universal_newlines r)
        | "" => NL
        end
      else String c (universal_newlines r)
  end.

Fixpoint splitlines_keepends (s : string) : list string :=
  match s with
  | "" => []
  | String c r =>
      if Ascii.eqb c nl then NL :: splitlines_keepends r
      else match splitlines_keepends r with
           | h :: t => String c h :: t
           | [] => [String c ""]
           end
  end.

Definition readlines (content : string) : list string :=
  splitlines_keepends (universal_newlines content).

(** [args.input.split('/')[-1].replace('.mojom', '')] *)
Definition pipeline (input : string) : string :=
  Str.replace ".mojom" "" (Str.last_item (Str.split "/" input)).

(** The f-string [data] starts from. *)
Definition header (name : string) : string :=
  "/* SPDX-License-Identifier: LGPL-2.1-or-later */" ++ NL ++
  "/*" ++ NL ++
  " * Copyright (C) 2021, Google Inc." ++ NL ++
  " *" ++ NL ++
  " * " ++ name ++ "_ipa_interface.cpp - Docs file for generated " ++ name ++ ".mojom" ++ NL ++
  " *" ++ NL ++
  " * This file is auto-generated. Do not edit." ++ NL ++
  " */" ++ NL ++
  NL ++
  "namespace libcamera {" ++ NL ++
  NL.

(** The text added after the loop. *)
Definition footer : string := "} /* namespace libcamera */" ++ NL.

(** The variables of the loop. *)
Record state : Type := mkState {
  in_block : bool;
  comment : string;
  data : string
}.

(** [SyntaxError(msg, (filename, lineno, offset, text))] *)
Inductive exn : Type :=
| SyntaxError (msg : string) (details : string * nat * nat * string).

(** The outcome of a run: the value [main] returns, or the exception that
    leaves it. *)
Inductive outcome : Type :=
| Returned (code : Z)
| Raised (e : exn).

(** One iteration of the loop, on line [line] numbered [lineno]. *)
Definition step (input : string) (lineno : nat) (st : state) (line : string)
  : exn + state :=
  if Re.re_match regex_block_start line then
    if in_block st then
      inl (SyntaxError "Expected end of comment" (input, lineno, 1, line))
    else
      inr {| in_block := true; comment := line; data := data st |}
  else if Re.re_match regex_block_end line then
    if in_block st then
      let comment' := comment st ++ line in
      inr {| in_block := false; comment := comment';
             data := data st ++ (comment' ++ NL) |}
    else
      inr {| in_block := false; comment := comment st; data := data st |}
  else if in_block st then
    inr {| in_block := true; comment := comment st ++ line; data := data st |}
  else
    inr st.

(** [for lineno, line in enumerate(lines, start=lineno)]: the loop from line
    number [lineno] on. *)
Fixpoint loop (input : string) (lineno : nat) (lines : list string) (st : state)
  : exn + state :=
  match lines with
  | [] => inr st
  | line :: rest =>
      match step input lineno st line with
      | inl e => inl e
      | inr st' => loop input (S lineno) rest st'
      end
  end.

(** The state the loop starts in. *)
Definition init (input : string) : state :=
  {| in_block := false; comment := ""; data := header (pipeline input) |}.

(** [main], from the parsed arguments on: [input] is [args.input], [lines]
    the lines read from it, and [output] what [args.output] holds so far;
    the result is the outcome and what [args.output] holds afterwards. *)
Definition main (input : string) (lines : list string) (output : string)
  : outcome * string :=
  match loop input 1 lines (init input) with
  | inl e => (Raised e, output)
  | inr st => (Returned 0%Z, output ++ (data st ++ footer))
  end.

(** [main] on a file of content [content]. *)
Definition main_file (input content output : string) : outcome * string :=
  main input (readlines content) output.

(** ** Vocabulary of the specification *)

(** The content of a line: the line without its terminator, if it has one. *)
Fixpoint content (line : string) : string :=
  match line with
  | "" => ""
  | String c r =>
      match r with
      | "" => if Ascii.eqb c nl then "" else line
      | String _ _ => String c (content r)
      end
  end.

Definition is_start (line : string) : bool := Re.re_match regex_block_start line.
Definition is_end (line : string) : bool := Re.re_match regex_block_end line.

(** A line that is neither delimiter. *)
Definition is_plain (line : string) : bool :=
  negb (is_start line) && negb (is_end line).


(** A block: its start-delimiter line, its body lines and its end-delimiter
    line. *)
Record block : Type := mkBlock {
  b_start : string;
  b_body : list string;
  b_end : string
}.

Definition block_lines (b : block) : list string :=
  (b_start b :: b_body b ++ [b_end b])%list.

(** The captured text of a block: its lines, one after the other. *)
Definition block_text (b : block) : string := Str.join (block_lines b).

(** A well-formed block: a start delimiter, plain lines, an end delimiter. *)
Definition well_formed (b : block) : bool :=
  is_start (b_start b) && forallb is_plain (b_body b) && is_end (b_end b).

(** Lines between blocks: anything but a start delimiter. *)
Definition gap_ok (gap : list string) : bool :=
  forallb (fun l => negb (is_start l)) gap.

(** The lines after the last block: a gap, and possibly a block that is
    opened and never closed. *)
Fixpoint tail_ok (tail : list string) : bool :=
  match tail with
  | [] => true
  | l :: r => if is_start l then forallb is_plain r else tail_ok r
  end.

(** An input laid out as blocks, each after a gap, and a tail. *)
Fixpoint layout (segs : list (list string * block)) (tail : list string)
  : list string :=
  match segs with
  | [] => tail
  | (gap, b) :: segs' => (gap ++ block_lines b ++ layout segs' tail)%list
  end.

Definition segs_ok (segs : list (list string * block)) : bool :=
  forallb (fun gb => gap_ok (fst gb) && well_formed (snd gb)) segs.

(** What the blocks of a layout add to [data]: the text of each block and a
    newline, in order. *)
Definition emitted (segs : list (list string * block)) : string :=
  Str.join (map (fun gb => block_text (snd gb) ++ NL) segs).

(** The state after the loop ran over [lines] from the first line on. *)
Definition state_after (input : string) (lines : list string) : exn + state :=
  loop input 1 lines (init input).

(** What a run writes to a destination that is empty when it starts. *)
Definition written (input : string) (lines : list string) : string :=
  snd (main input lines "").

(** An error with its line number moved by [k]. *)
Definition shift_lineno (k : nat) (e : exn) : exn :=
  match e with
  | SyntaxError msg (file, lineno, col, text) =>
      SyntaxError msg (file, lineno + k, col, text)
  end.

(** The result of a run with the line number of its error, if it has one,
    moved by [k]. *)
Definition renumber (k : nat) (r : outcome * string) : outcome * string :=
  match r with
  | (Raised e, out) => (Raised (shift_lineno k e), out)
  | (Returned code, out) => (Returned code, out)
  end.

(** Line [l], met after the lines [pre] and before the lines [post], leaves
    no trace in what the run writes. *)
Definition line_ignored (input : string) (pre : list string) (l : string)
    (post : list string) : Prop :=
  written input (pre ++ l :: post)%list = written input (pre ++ post)%list.

(** What is written for the one block [b], read line by line: the lines of
    the header, the lines of the block as they are, one blank line, the line
    of the footer. *)
Definition faithful_capture (input : string) (pre : list string) (b : block)
    (post : list string) : Prop :=
  splitlines_keepends (written input (pre ++ block_lines b ++ post)%list) =
  (splitlines_keepends (header (pipeline input)) ++
   block_lines b ++ [NL] ++ splitlines_keepends footer)%list.

(** Line number [j] (from 1) holds the start delimiter [s2], and a block is
    open there: an earlier line is a start delimiter and no line between the
    two is an end delimiter. *)
Definition nested_open (lines : list string) (j : nat) (s2 : string) : Prop :=
  exists (a : list string) (s1 : string) (m z : list string),
    lines = (a ++ s1 :: m ++ s2 :: z)%list /\
    is_start s1 = true /\
    forallb (fun l => negb (is_end l)) m = true /\
    is_start s2 = true /\
    j = length a + length m + 2.

(** A start delimiter with an end delimiter somewhere after it. *)
Fixpoint has_pair (lines : list string) : bool :=
  match lines with
  | [] => false
  | l :: r => (is_start l && existsb is_end r) || has_pair r
  end.

(** The number of start-delimiter lines. *)
Definition count_start (lines : list string) : nat :=
  length (filter is_start lines).

(** A line as [readlines] gives all lines but, possibly, the last: some
    characters other than the terminator, then the terminator. *)
Fixpoint proper_line (l : string) : bool :=
  match l with
  | "" => false
  | String c r =>
      match r with
      | "" => Ascii.eqb c nl
      | String _ _ => negb (Ascii.eqb c nl) && proper_line r
      end
  end.

(** The lines [readlines] can give: every line but the last is proper, and
    the last is proper or holds no terminator at all. *)
Fixpoint no_newline (s : string) : bool :=
  match s with
  | "" => true
  | String c r => negb (Ascii.eqb c nl) && no_newline r
  end.

Fixpoint file_lines (ls : list string) : bool :=
  match ls with
  | [] => true
  | l :: r =>
      match r with
      | [] => proper_line l || (no_newline l && negb (String.eqb l ""))
      | _ :: _ => proper_line l && file_lines r
      end
  end.

(** The base name of a path, in the words of the specification: what
    follows the last ['/'] (the whole path when it has none). *)
Fixpoint basename (path : string) : string :=
  match path with
  | "" => ""
  | String c r => if Str.contains "/" path then basename r else path
  end.

(** The name of the specification: [s] without its suffix [suf], when [s]
    ends with it ([s.removesuffix(suf)]). *)
Definition removesuffix (suf s : string) : string :=
  if Str.endswith suf s
  then substring 0 (String.length s - String.length suf) s
  else s.

Definition spec_name (input : string) : string :=
  removesuffix ".mojom" (basename input).

(** A text without carriage return. *)
Definition no_cr (s : string) : bool := negb (Str.contains (String cr "") s).

(** A text with Windows line ends: every newline after a carriage return. *)
Fixpoint to_crlf (s : string) : string :=
  match s with
  | "" => ""
  | String c r =>
      if Ascii.eqb c nl then String cr (String nl (to_crlf r))
      else String c (to_crlf r)
  end.

(** The lines of the header. *)
Definition header_lines (name : string) : list string :=
  [ "/* SPDX-License-Identifier: LGPL-2.1-or-later */" ++ NL;
    "/*" ++ NL;
    " * Copyright (C) 2021, Google Inc." ++ NL;
    " *" ++ NL;
    (" * " ++ name ++ "_ipa_interface.cpp - Docs file for generated "
       ++ name ++ ".mojom") ++ NL;
    " *" ++ NL;
    " * This file is auto-generated. Do not edit." ++ NL;
    " */" ++ NL;
    NL;
    "namespace libcamera {" ++ NL;
    NL ].

(** The lines the blocks of a layout give in the output: the lines of each
    block and a blank line. *)
Definition emitted_lines (segs : list (list string * block)) : list string :=
  concat (map (fun gb => block_lines (snd gb) ++ [NL])%list segs).

(** Every line of every block is proper. *)
Definition blocks_proper (segs : list (list string * block)) : bool :=
  forallb (fun gb => forallb proper_line (block_lines (snd gb))) segs.

(** ** Concatenation of strings *)

Lemma append_nil_r (s : string) : s ++ "" = s.
Proof. induction s as [|a s IH]; simpl; [reflexivity | now rewrite IH]. Qed.

Lemma append_assoc (s t u : string) : (s ++ t) ++ u = s ++ (t ++ u).
Proof. induction s as [|a s IH]; simpl; [reflexivity | now rewrite IH]. Qed.

Lemma join_app (l1 l2 : list string) :
  Str.join (l1 ++ l2)%list = Str.join l1 ++ Str.join l2.
Proof.
  induction l1 as [|s l1 IH]; simpl; [reflexivity|].
  now rewrite IH, append_assoc.
Qed.

(** ** The two patterns *)

Lemma regex_block_start_items :
  regex_block_start = [Re.Bol; Re.Lit "/"; Re.Lit "*"; Re.Lit "*"; Re.Eol]%char.
Proof. reflexivity. Qed.

Lemma regex_block_end_items :
  regex_block_end = [Re.Bol; Re.Lit " "; Re.Lit "*"; Re.Lit "/"; Re.Eol]%char.
Proof. reflexivity. Qed.

Lemma at_end_iff (s : string) :
  Re.at_end s = true <-> s = "" \/ s = NL.
Proof.
  unfold Re.at_end. rewrite orb_true_iff, !String.eqb_eq. tauto.
Qed.

(** A pattern [^abc$] matches exactly [abc] and [abc] followed by a newline. *)
Lemma match_literals (cs : string) (s : string) (start : bool) :
  Re.match_here (map Re.Lit (list_ascii_of_string cs) ++ [Re.Eol])%list start s = true
  <-> s = cs \/ s = cs ++ NL.
Proof.
  revert s start. induction cs as [|c cs IH]; intros s start; simpl.
  - rewrite andb_true_r. apply at_end_iff.
  - destruct s as [|d r].
    + split; [discriminate | intros [H|H]; discriminate].
    + rewrite andb_true_iff, Ascii.eqb_eq, IH. split.
      * intros [-> [->| ->]]; auto.
      * intros [H|H]; injection H as -> ->; auto.
Qed.

Lemma is_start_iff (line : string) :
  is_start line = true <-> line = "/**" \/ line = "/**" ++ NL.
Proof.
  unfold is_start, Re.re_match. rewrite regex_block_start_items.
  change (Re.match_here _ true line)
    with (true && Re.match_here
            (map Re.Lit (list_ascii_of_string "/**") ++ [Re.Eol])%list true line).
  rewrite andb_true_l. apply match_literals.
Qed.

Lemma is_end_iff (line : string) :
  is_end line = true <-> line = " */" \/ line = " */" ++ NL.
Proof.
  unfold is_end, Re.re_match. rewrite regex_block_end_items.
  change (Re.match_here _ true line)
    with (true && Re.match_here
            (map Re.Lit (list_ascii_of_string " */") ++ [Re.Eol])%list true line).
  rewrite andb_true_l. apply match_literals.
Qed.

(** No line is both delimiters. *)
Lemma start_not_end (line : string) :
  is_start line = true -> is_end line = false.
Proof.
  rewrite is_start_iff. intros [-> | ->]; reflexivity.
Qed.

(** ** The content of a line *)

Lemma content_app_nl (c : string) :
  content (c ++ NL) = c.
Proof.
  induction c as [|a c IH]; [reflexivity|].
  change ((String a c) ++ NL) with (String a (c ++ NL)).
  simpl content. rewrite IH.
  destruct c; reflexivity.
Qed.

Lemma content_cases (line : string) :
  line = content line ++ NL \/ line = content line.
Proof.
  induction line as [|a r IH]; [right; reflexivity|].
  destruct r as [|b r'].
  - simpl. destruct (Ascii.eqb a nl) eqn:E.
    + apply Ascii.eqb_eq in E. subst. left. reflexivity.
    + right. reflexivity.
  - change (content (String a (String b r')))
      with (String a (content (String b r'))).
    destruct IH as [IH|IH]; [left|right]; simpl; f_equal; exact IH.
Qed.

(** A text without the terminator at its end is the content of exactly two
    lines: itself, and itself with the terminator. *)
Lemma content_eq_iff (line c : string) :
  content c = c ->
  content line = c <-> line = c \/ line = c ++ NL.
Proof.
  intros Hc. split.
  - intros H. destruct (content_cases line) as [E|E]; rewrite H in E; auto.
  - intros [-> | ->]; [exact Hc | apply content_app_nl].
Qed.

(** ** One iteration of the loop, case by case *)

Section Step.

Variables (input : string) (lineno : nat) (st : state) (line : string).

Lemma step_start_inside :
  is_start line = true -> in_block st = true ->
  step input lineno st line =
  inl (SyntaxError "Expected end of comment" (input, lineno, 1, line)).
Proof.
  unfold step, is_start. intros -> ->. reflexivity.
Qed.

Lemma step_start_outside :
  is_start line = true -> in_block st = false ->
  step input lineno st line =
  inr {| in_block := true; comment := line; data := data st |}.
Proof.
  unfold step, is_start. intros -> ->. reflexivity.
Qed.

Lemma step_end_inside :
  is_end line = true -> in_block st = true ->
  step input lineno st line =
  inr {| in_block := false; comment := comment st ++ line;
         data := data st ++ ((comment st ++ line) ++ NL) |}.
Proof.
  intros He Hb. unfold step.
  destruct (Re.re_match regex_block_start line) eqn:Hs.
  - apply start_not_end in Hs. congruence.
  - unfold is_end in He. rewrite He, Hb. reflexivity.
Qed.

Lemma step_not_start_outside :
  is_start line = false -> in_block st = false ->
  step input lineno st line = inr st.
Proof.
  unfold step, is_start. intros -> Hb. rewrite Hb.
  destruct (Re.re_match regex_block_end line); [|reflexivity].
  destruct st as [b c d]. simpl in Hb. subst b. reflexivity.
Qed.

Lemma step_plain_inside :
  is_plain line = true -> in_block st = true ->
  step input lineno st line =
  inr {| in_block := true; comment := comment st ++ line; data := data st |}.
Proof.
  unfold is_plain, is_start, is_end, step. intros Hp ->.
  apply andb_true_iff in Hp. destruct Hp as [Hs He].
  apply negb_true_iff in Hs, He. rewrite Hs, He. reflexivity.
Qed.

End Step.

Lemma is_plain_not_start (line : string) :
  is_plain line = true -> is_start line = false.
Proof.
  unfold is_plain. intros H. apply andb_true_iff in H.
  destruct H as [H _]. now apply negb_true_iff in H.
Qed.

Lemma is_plain_not_end (line : string) :
  is_plain line = true -> is_end line = false.
Proof.
  unfold is_plain. intros H. apply andb_true_iff in H.
  destruct H as [_ H]. now apply negb_true_iff in H.
Qed.

(** ** The loop *)

Lemma loop_app (input : string) (l1 l2 : list string) :
  forall (n : nat) (st : state),
    loop input n (l1 ++ l2)%list st =
    match loop input n l1 st with
    | inl e => inl e
    | inr st' => loop input (n + length l1) l2 st'
    end.
Proof.
  induction l1 as [|l l1 IH]; intros n st; simpl.
  - now rewrite Nat.add_0_r.
  - destruct (step input n st l) as [e|st']; [reflexivity|].
    rewrite IH. now rewrite Nat.add_succ_r.
Qed.

(** Lines that are not start delimiters, met outside a block, change
    nothing. *)
Lemma loop_outside (input : string) (gap : list string) :
  forall (n : nat) (st : state),
    forallb (fun l => negb (is_start l)) gap = true ->
    in_block st = false ->
    loop input n gap st = inr st.
Proof.
  induction gap as [|l gap IH]; intros n st Hg Hb; [reflexivity|].
  simpl in Hg. apply andb_true_iff in Hg. destruct Hg as [Hl Hg].
  apply negb_true_iff in Hl.
  simpl. rewrite step_not_start_outside by assumption. now apply IH.
Qed.

(** Plain lines met inside a block are added to [comment]. *)
Lemma loop_inside (input : string) (body : list string) :
  forall (n : nat) (st : state),
    forallb is_plain body = true ->
    in_block st = true ->
    loop input n body st =
    inr {| in_block := true; comment := comment st ++ Str.join body;
           data := data st |}.
Proof.
  induction body as [|l body IH]; intros n st Hp Hb.
  - simpl. rewrite append_nil_r.
    destruct st as [b c d]. simpl in *. subst. reflexivity.
  - simpl in Hp. apply andb_true_iff in Hp. destruct Hp as [Hl Hp].
    simpl loop. rewrite step_plain_inside by assumption.
    rewrite IH by (assumption || reflexivity). simpl.
    now rewrite append_assoc.
Qed.

(** ** Blocks *)

Lemma loop_block (input : string) (b : block) (n : nat) (st : state) :
  well_formed b = true ->
  in_block st = false ->
  loop input n (block_lines b) st =
  inr {| in_block := false; comment := block_text b;
         data := data st ++ (block_text b ++ NL) |}.
Proof.
  unfold well_formed. intros Hw Hb.
  apply andb_true_iff in Hw. destruct Hw as [Hw He].
  apply andb_true_iff in Hw. destruct Hw as [Hs Hp].
  unfold block_lines. simpl loop.
  rewrite step_start_outside by assumption.
  rewrite loop_app, loop_inside by (assumption || reflexivity).
  simpl loop. rewrite step_end_inside by (assumption || reflexivity).
  unfold block_text, block_lines. simpl.
  rewrite join_app. simpl. rewrite append_nil_r.
  now rewrite !append_assoc.
Qed.

Lemma loop_tail (input : string) (tail : list string) :
  forall (n : nat) (st : state),
    tail_ok tail = true ->
    in_block st = false ->
    exists st', loop input n tail st = inr st' /\ data st' = data st.
Proof.
  induction tail as [|l tail IH]; intros n st Ht Hb.
  - exists st. split; reflexivity.
  - simpl in Ht. simpl loop. destruct (is_start l) eqn:Hs.
    + rewrite step_start_outside by assumption.
      rewrite loop_inside by (assumption || reflexivity).
      eexists. split; reflexivity.
    + rewrite step_not_start_outside by assumption. now apply IH.
Qed.

Lemma loop_layout (input : string) (segs : list (list string * block)) :
  forall (n : nat) (st : state),
    segs_ok segs = true ->
    in_block st = false ->
    exists st',
      in_block st' = false /\
      data st' = data st ++ emitted segs /\
      forall tail,
        loop input n (layout segs tail) st =
        loop input (n + length (layout segs [])) tail st'.
Proof.
  induction segs as [|[gap b] segs IH]; intros n st Hok Hb.
  - exists st. repeat split; [assumption | |].
    + unfold emitted. simpl. now rewrite append_nil_r.
    + intros tail. simpl. now rewrite Nat.add_0_r.
  - simpl in Hok. apply andb_true_iff in Hok. destruct Hok as [Hgb Hok].
    apply andb_true_iff in Hgb. destruct Hgb as [Hg Hw].
    set (st1 := {| in_block := false; comment := block_text b;
                   data := data st ++ (block_text b ++ NL) |}).
    destruct (IH (n + length gap + length (block_lines b)) st1 Hok eq_refl)
      as (st' & Hb' & Hd & Hl).
    exists st'. repeat split; [assumption | |].
    + rewrite Hd. unfold emitted. simpl. now rewrite !append_assoc.
    + intros tail. cbn [layout fst snd] in *.
      rewrite loop_app, loop_outside by assumption.
      rewrite loop_app, loop_block by assumption.
      fold st1. rewrite Hl. f_equal. rewrite !length_app. lia.
Qed.

(** Inside a block, a loop that does not raise reads plain lines to the end
    of the input, or plain lines and the end delimiter that closes the
    block. *)
Lemma loop_close_inv (input : string) (lines : list string) :
  forall (n : nat) (st st' : state),
    in_block st = true ->
    loop input n lines st = inr st' ->
    forallb is_plain lines = true \/
    exists body e rest st1,
      lines = (body ++ e :: rest)%list /\
      forallb is_plain body = true /\
      is_end e = true /\
      in_block st1 = false /\
      loop input (n + length body + 1) rest st1 = inr st'.
Proof.
  induction lines as [|l lines IH]; intros n st st' Hb H; [now left|].
  simpl in H. destruct (is_start l) eqn:Hs.
  - rewrite step_start_inside in H by assumption. discriminate H.
  - destruct (is_end l) eqn:He.
    + rewrite step_end_inside in H by assumption.
      right. exists [], l, lines. eexists. simpl.
      repeat split; [exact He | | rewrite Nat.add_0_r, Nat.add_1_r; exact H].
      reflexivity.
    + assert (Hp : is_plain l = true) by (unfold is_plain; now rewrite Hs, He).
      rewrite step_plain_inside in H by assumption.
      apply IH in H; [|reflexivity].
      destruct H
        as [Hall | (body & e & rest & st1 & -> & Hbody & Hend & Hb1 & Hl)].
      * left. simpl. now rewrite Hp, Hall.
      * right. exists (l :: body), e, rest, st1. simpl.
        rewrite Hp, Hbody. repeat split; auto.
        replace (n + S (length body) + 1) with (S n + length body + 1) by lia.
        exact Hl.
Qed.

(** Every input on which the loop does not raise is laid out as blocks,
    gaps and a tail. *)
Lemma returned_layout (input : string) (k : nat) :
  forall (lines : list string) (n : nat) (st st' : state),
    length lines <= k ->
    in_block st = false ->
    loop input n lines st = inr st' ->
    exists segs tail,
      lines = layout segs tail /\
      segs_ok segs = true /\
      tail_ok tail = true.
Proof.
  induction k as [|k IH]; intros lines n st st' Hlen Hb H.
  - destruct lines; [|simpl in Hlen; lia]. now exists [], [].
  - destruct lines as [|l lines]; [now exists [], []|].
    simpl in Hlen, H. destruct (is_start l) eqn:Hs.
    + rewrite step_start_outside in H by assumption.
      apply loop_close_inv in H; [|reflexivity].
      destruct H
        as [Hall | (body & e & rest & st1 & -> & Hbody & Hend & Hb1 & Hl)].
      * exists [], (l :: lines). simpl. now rewrite Hs.
      * destruct (IH rest _ _ _ ltac:(rewrite length_app in Hlen; simpl in Hlen; lia)
                    Hb1 Hl) as (segs & tail & -> & Hsegs & Htail).
        exists (([], mkBlock l body e) :: segs), tail.
        repeat split; [|cbn; unfold well_formed; cbn; now rewrite Hs, Hbody, Hend|exact Htail].
        cbn. unfold block_lines. cbn. now rewrite <- app_assoc.
    + rewrite step_not_start_outside in H by assumption.
      destruct (IH lines _ _ _ ltac:(lia) Hb H)
        as (segs & tail & -> & Hsegs & Htail).
      destruct segs as [|[g b] segs].
      * exists [], (l :: tail). simpl. now rewrite Hs.
      * exists ((l :: g, b) :: segs), tail. repeat split; [|exact Htail].
        cbn in *. now rewrite Hs.
Qed.

(** The output of a run over a laid-out input: the header, the text of every
    block followed by a newline, in the order of the input, and the footer. *)
Lemma main_layout (input : string) (segs : list (list string * block))
    (tail : list string) (output : string) :
  segs_ok segs = true ->
  tail_ok tail = true ->
  main input (layout segs tail) output =
  (Returned 0%Z,
   output ++ ((header (pipeline input) ++ emitted segs) ++ footer)).
Proof.
  intros Hok Ht. unfold main.
  destruct (loop_layout input segs 1 (init input) Hok eq_refl)
    as (st' & Hb' & Hd & Hl).
  rewrite Hl.
  destruct (loop_tail input tail (1 + length (layout segs [])) st' Ht Hb')
    as (st'' & -> & Hd').
  now rewrite Hd', Hd.
Qed.

Example scenario :
  main_file "bar.mojom"
    ("line A" ++ NL ++ "/**" ++ NL ++ " * Hello." ++ NL ++ " */" ++ NL ++ "line B" ++ NL) ""
  = (Returned 0%Z,
     header "bar" ++ "/**" ++ NL ++ " * Hello." ++ NL ++ " */" ++ NL ++ NL ++ footer).
Proof. vm_compute. reflexivity. Qed.

(** ** Recognition of the delimiters *)

(** C8: a line is a start delimiter exactly when its content, the line
    without its terminator, is the three characters [/**], and an end
    delimiter exactly when its content is a space followed by [*/], and the
    loop treats it so: on a line of content [/**] it opens a block whose
    text starts with that line, or raises the error inside a block; on a
    line of content [ */] it closes the open block and adds its text and a
    newline to [data], or does nothing outside a block; a line with any
    other content is an ordinary line: added to [comment] inside a block,
    ignored outside. *)
Theorem delimiter_recognition (line : string) :
  (is_start line = true <-> content line = "/**") /\
  (is_end line = true <-> content line = " */") /\
  (content line = "/**" ->
   forall (input : string) (lineno : nat) (st : state),
     step input lineno st line =
     if in_block st
     then inl (SyntaxError "Expected end of comment" (input, lineno, 1, line))
     else inr {| in_block := true; comment := line; data := data st |}) /\
  (content line = " */" ->
   forall (input : string) (lineno : nat) (st : state),
     step input lineno st line =
     inr (if in_block st
          then {| in_block := false; comment := comment st ++ line;
                  data := data st ++ ((comment st ++ line) ++ NL) |}
          else st)) /\
  (content line <> "/**" -> content line <> " */" ->
   forall (input : string) (lineno : nat) (st : state),
     step input lineno st line =
     inr (if in_block st
          then {| in_block := true; comment := comment st ++ line;
                  data := data st |}
          else st)).
Proof.
  assert (Hs : is_start line = true <-> content line = "/**").
  { rewrite is_start_iff. symmetry. now apply content_eq_iff. }
  assert (He : is_end line = true <-> content line = " */").
  { rewrite is_end_iff. symmetry. now apply content_eq_iff. }
  split; [exact Hs|]. split; [exact He|]. split; [|split].
  - intros Hc input lineno st. apply Hs in Hc.
    destruct (in_block st) eqn:Hb.
    + now apply step_start_inside.
    + now apply step_start_outside.
  - intros Hc input lineno st. apply He in Hc.
    destruct (in_block st) eqn:Hb.
    + now apply step_end_inside.
    + apply step_not_start_outside; [|exact Hb].
      destruct (is_start line) eqn:Hst; [|reflexivity].
      apply start_not_end in Hst. congruence.
  - intros Hns Hne input lineno st.
    assert (Hp : is_plain line = true).
    { unfold is_plain.
      destruct (is_start line); [exfalso; apply Hns, Hs; reflexivity|].
      destruct (is_end line); [exfalso; apply Hne, He; reflexivity|].
      reflexivity. }
    destruct (in_block st) eqn:Hb.
    + now apply step_plain_inside.
    + apply step_not_start_outside; [now apply is_plain_not_start | exact Hb].
Qed.

(** A start delimiter opens a block, an end delimiter closes it and gives
    its text to [data], and a line with a space after [/**] is an ordinary
    line. *)
Lemma delimiter_recognition_witness :
  step "core.mojom" 1
    {| in_block := false; comment := ""; data := "" |} ("/**" ++ NL)
  = inr {| in_block := true; comment := "/**" ++ NL; data := "" |} /\
  step "core.mojom" 3
    {| in_block := true; comment := "/**" ++ NL; data := "" |} (" */" ++ NL)
  = inr {| in_block := false; comment := ("/**" ++ NL) ++ (" */" ++ NL);
           data := "" ++ ((("/**" ++ NL) ++ (" */" ++ NL)) ++ NL) |} /\
  step "core.mojom" 2
    {| in_block := true; comment := "/**" ++ NL; data := "" |}
    ("/** " ++ NL)
  = inr {| in_block := true; comment := ("/**" ++ NL) ++ ("/** " ++ NL);
           data := "" |}.
Proof.
  split; [|split].
  - exact (proj1 (proj2 (proj2 (delimiter_recognition ("/**" ++ NL))))
             eq_refl "core.mojom" 1
             {| in_block := false; comment := ""; data := "" |}).
  - exact (proj1 (proj2 (proj2 (proj2 (delimiter_recognition (" */" ++ NL)))))
             eq_refl "core.mojom" 3
             {| in_block := true; comment := "/**" ++ NL; data := "" |}).
  - apply (proj2 (proj2 (proj2 (proj2
             (delimiter_recognition ("/** " ++ NL))))));
      vm_compute; discriminate.
Defined.

(** ** What a run produces *)

Lemma main_returned (input : string) (lines : list string) (output : string)
    (st : state) :
  state_after input lines = inr st ->
  main input lines output = (Returned 0%Z, output ++ (data st ++ footer)).
Proof.
  unfold state_after, main. now intros ->.
Qed.

Lemma main_raised (input : string) (lines : list string) (output : string)
    (e : exn) :
  state_after input lines = inl e ->
  main input lines output = (Raised e, output).
Proof.
  unfold state_after, main. now intros ->.
Qed.

Lemma state_after_app (input : string) (pre post : list string) (st : state) :
  state_after input pre = inr st ->
  state_after input (pre ++ post)%list = loop input (S (length pre)) post st.
Proof.
  unfold state_after. intros H. now rewrite loop_app, H.
Qed.

(** C10: a last line without terminator that is otherwise a delimiter is
    that delimiter: [/**] inside a block raises the error, and [ */] closes
    the open block, whose text is written followed by one newline, and the
    footer comes right after that newline. *)
Theorem terminatorless_delimiters :
  is_start "/**" = true /\
  is_end " */" = true /\
  forall (input : string) (pre : list string) (st : state) (output : string),
    state_after input pre = inr st ->
    in_block st = true ->
    main input (pre ++ ["/**"])%list output =
      (Raised (SyntaxError "Expected end of comment"
                 (input, S (length pre), 1, "/**")), output) /\
    main input (pre ++ [" */"])%list output =
      (Returned 0%Z,
       output ++ ((data st ++ ((comment st ++ " */") ++ NL)) ++ footer)).
Proof.
  split; [reflexivity|]. split; [reflexivity|].
  intros input pre st output Hpre Hb. split.
  - apply main_raised. rewrite (state_after_app _ _ _ _ Hpre). simpl.
    now rewrite step_start_inside.
  - rewrite (main_returned _ _ _
               {| in_block := false; comment := comment st ++ " */";
                  data := data st ++ ((comment st ++ " */") ++ NL) |});
      [reflexivity|].
    rewrite (state_after_app _ _ _ _ Hpre). simpl.
    now rewrite step_end_inside.
Qed.

(** A file that ends with [ */] and no newline. *)
Lemma terminatorless_delimiters_witness :
  main_file "core.mojom" ("/**" ++ NL ++ " * Doc" ++ NL ++ " */") "" =
  (Returned 0%Z,
   header "core" ++ "/**" ++ NL ++ " * Doc" ++ NL ++ " */" ++ NL ++ footer).
Proof.
  pose proof (proj2 (proj2 terminatorless_delimiters)
                "core.mojom" ["/**" ++ NL; " * Doc" ++ NL]
                {| in_block := true;
                   comment := ("/**" ++ NL) ++ (" * Doc" ++ NL);
                   data := header "core" |} ""
                eq_refl eq_refl) as [_ H].
  exact H.
Defined.

(** ** Several blocks *)

(** An input on which the run returns is laid out as blocks, gaps and a
    tail. *)
Lemma main_returned_layout (input : string) (lines : list string)
    (output : string) (code : Z) :
  fst (main input lines output) = Returned code ->
  exists segs tail,
    lines = layout segs tail /\ segs_ok segs = true /\ tail_ok tail = true.
Proof.
  unfold main.
  destruct (loop input 1 lines (init input)) as [e|st] eqn:H; [discriminate|].
  intros _.
  exact (returned_layout input (length lines) lines 1 (init input) st
           (Nat.le_refl _) eq_refl H).
Qed.



(** ** Lines that change nothing *)

Lemma step_shift (input : string) (n k : nat) (st : state) (l : string) :
  step input (n + k) st l =
  match step input n st l with
  | inl e => inl (shift_lineno k e)
  | inr st' => inr st'
  end.
Proof.
  unfold step.
  destruct (Re.re_match regex_block_start l);
    destruct (Re.re_match regex_block_end l);
    destruct (in_block st); reflexivity.
Qed.

Lemma loop_shift (input : string) (k : nat) (lines : list string) :
  forall (n : nat) (st : state),
    loop input (n + k) lines st =
    match loop input n lines st with
    | inl e => inl (shift_lineno k e)
    | inr st' => inr st'
    end.
Proof.
  induction lines as [|l lines IH]; intros n st; simpl; [reflexivity|].
  rewrite step_shift.
  destruct (step input n st l) as [e|st']; [reflexivity|].
  exact (IH (S n) st').
Qed.

(** A line on which the loop keeps its state can be left out: the run ends
    the same way, an error being reported one line further. *)
Lemma main_skip_line (input : string) (pre : list string) (l : string)
    (post : list string) (st : state) (output : string) :
  state_after input pre = inr st ->
  step input (S (length pre)) st l = inr st ->
  main input (pre ++ l :: post)%list output =
  renumber 1 (main input (pre ++ post)%list output).
Proof.
  intros Hpre Hstep. unfold main.
  fold (state_after input (pre ++ l :: post)%list).
  fold (state_after input (pre ++ post)%list).
  rewrite !(state_after_app _ _ _ _ Hpre). simpl. rewrite Hstep.
  replace (S (S (length pre))) with (S (length pre) + 1) by lia.
  rewrite loop_shift.
  destruct (loop input (S (length pre)) post st); reflexivity.
Qed.

Lemma renumber_snd (k : nat) (r : outcome * string) :
  snd (renumber k r) = snd r.
Proof. destruct r as [[c|e] out]; reflexivity. Qed.

(** C6: an end delimiter met while no block is open adds nothing to the
    output and raises no error: the loop keeps its state, and the run ends as
    it does without that line, the same text written or the same error
    raised; the line counts, so that a later error is reported one line
    further. *)
Theorem stray_end_ignored (input : string) (pre : list string) (l : string)
    (post : list string) (st : state) (output : string) :
  state_after input pre = inr st ->
  in_block st = false ->
  is_end l = true ->
  step input (S (length pre)) st l = inr st /\
  main input (pre ++ l :: post)%list output =
    renumber 1 (main input (pre ++ post)%list output) /\
  snd (main input (pre ++ l :: post)%list output) =
    snd (main input (pre ++ post)%list output).
Proof.
  intros Hpre Hb He.
  assert (Hstep : step input (S (length pre)) st l = inr st).
  { apply step_not_start_outside; [|exact Hb].
    destruct (is_start l) eqn:Hs; [|reflexivity].
    apply start_not_end in Hs. congruence. }
  split; [exact Hstep|].
  rewrite (main_skip_line _ _ _ _ _ _ Hpre Hstep).
  split; [reflexivity | apply renumber_snd].
Qed.

(** An end delimiter before the only block of the input. *)
Lemma stray_end_ignored_witness :
  main "core.mojom"
    ["x" ++ NL; " */" ++ NL; "/**" ++ NL; " */" ++ NL] "" =
  main "core.mojom" ["x" ++ NL; "/**" ++ NL; " */" ++ NL] "".
Proof.
  exact (proj1 (proj2 (stray_end_ignored "core.mojom"
                         ["x" ++ NL] (" */" ++ NL) ["/**" ++ NL; " */" ++ NL]
                         (init "core.mojom") "" eq_refl eq_refl eq_refl))).
Defined.

(** C7, as amended: a line met while no block is open, other than a start
    delimiter (which opens a block and is the first line of its text),
    leaves no trace in the output, whatever its content: the loop keeps its
    state and the run writes what it writes without the line. *)
Theorem outside_lines_ignored (input : string) (pre : list string) (l : string)
    (post : list string) (st : state) :
  state_after input pre = inr st ->
  in_block st = false ->
  is_start l = false ->
  step input (S (length pre)) st l = inr st /\
  line_ignored input pre l post /\
  forall output,
    main input (pre ++ l :: post)%list output =
    renumber 1 (main input (pre ++ post)%list output).
Proof.
  intros Hpre Hb Hs.
  assert (Hstep : step input (S (length pre)) st l = inr st)
    by now apply step_not_start_outside.
  split; [exact Hstep|]. split.
  - unfold line_ignored, written.
    rewrite (main_skip_line _ _ _ _ _ _ Hpre Hstep). apply renumber_snd.
  - intros output. exact (main_skip_line _ _ _ _ _ _ Hpre Hstep).
Qed.

(** A line that looks like a block on one line, outside a block. *)
Lemma outside_lines_ignored_witness :
  line_ignored "core.mojom" ["/**" ++ NL; " */" ++ NL]
    ("/** one line */" ++ NL) ["/**" ++ NL; " */" ++ NL].
Proof.
  exact (proj1 (proj2 (outside_lines_ignored "core.mojom"
                         ["/**" ++ NL; " */" ++ NL] ("/** one line */" ++ NL)
                         ["/**" ++ NL; " */" ++ NL]
                         {| in_block := false;
                            comment := "/**" ++ NL ++ " */" ++ NL;
                            data := header "core" ++
                                    "/**" ++ NL ++ " */" ++ NL ++ NL |}
                         eq_refl eq_refl eq_refl))).
Defined.

(** C7, as stated, fails on a start delimiter: it is met while no block is
    open, and it is written with the block it opens. *)
Lemma start_line_outside_appears :
  state_after "core.mojom" [] = inr (init "core.mojom") /\
  in_block (init "core.mojom") = false /\
  written "core.mojom" ["/**" ++ NL; " */" ++ NL] =
    header "core" ++ ("/**" ++ NL) ++ (" */" ++ NL) ++ NL ++ footer /\
  written "core.mojom" [" */" ++ NL] = header "core" ++ footer /\
  ~ line_ignored "core.mojom" [] ("/**" ++ NL) [" */" ++ NL].
Proof.
  repeat split.
  unfold line_ignored. vm_compute. discriminate.
Qed.

(** ** Inputs without blocks *)

Lemma plain_gap_ok (ls : list string) :
  forallb is_plain ls = true -> gap_ok ls = true.
Proof.
  unfold gap_ok. induction ls as [|l ls IH]; simpl; [reflexivity|].
  intros H. apply andb_true_iff in H. destruct H as [Hl H].
  now rewrite (is_plain_not_start _ Hl), IH.
Qed.

Lemma gap_tail_ok (ls : list string) :
  gap_ok ls = true -> tail_ok ls = true.
Proof.
  unfold gap_ok. induction ls as [|l ls IH]; simpl; [reflexivity|].
  intros H. apply andb_true_iff in H. destruct H as [Hl H].
  apply negb_true_iff in Hl. rewrite Hl. now apply IH.
Qed.

(** Lines with no start delimiter and no end delimiter are plain. *)
Lemma no_delimiter_plain (ls : list string) :
  count_start ls = 0 -> existsb is_end ls = false ->
  forallb is_plain ls = true.
Proof.
  unfold count_start, is_plain.
  induction ls as [|l ls IH]; simpl; [reflexivity|].
  destruct (is_start l); simpl; [discriminate|].
  destruct (is_end l); simpl; [discriminate|]. exact IH.
Qed.

(** With no start delimiter followed by an end delimiter and at most one
    start delimiter, the lines are a tail. *)
Lemma no_pair_tail_ok (ls : list string) :
  has_pair ls = false -> count_start ls <= 1 -> tail_ok ls = true.
Proof.
  unfold count_start.
  induction ls as [|l ls IH]; simpl; [reflexivity|].
  intros Hp Hc. apply orb_false_iff in Hp. destruct Hp as [Hp1 Hp2].
  destruct (is_start l); simpl in *.
  - apply no_delimiter_plain; [unfold count_start; lia | exact Hp1].
  - now apply IH.
Qed.

(** Inside a block, lines with a start delimiter and no end delimiter raise
    the error. *)
Lemma loop_inside_raises (input : string) (ls : list string) :
  forall (n : nat) (st : state),
    in_block st = true ->
    existsb is_end ls = false ->
    1 <= count_start ls ->
    exists e, loop input n ls st = inl e.
Proof.
  unfold count_start.
  induction ls as [|l ls IH]; simpl; intros n st Hb He Hc; [lia|].
  apply orb_false_iff in He. destruct He as [He1 He2].
  destruct (is_start l) eqn:Hs.
  - rewrite step_start_inside by assumption. eexists. reflexivity.
  - rewrite step_plain_inside
      by (assumption || (unfold is_plain; now rewrite Hs, He1)).
    apply IH; [reflexivity | assumption | assumption].
Qed.

Lemma no_pair_raises (input : string) (ls : list string) :
  forall (n : nat) (st : state),
    in_block st = false ->
    has_pair ls = false ->
    2 <= count_start ls ->
    exists e, loop input n ls st = inl e.
Proof.
  unfold count_start.
  induction ls as [|l ls IH]; simpl; intros n st Hb Hp Hc; [lia|].
  apply orb_false_iff in Hp. destruct Hp as [Hp1 Hp2].
  destruct (is_start l) eqn:Hs; simpl in *.
  - rewrite step_start_outside by assumption.
    apply loop_inside_raises; [reflexivity | exact Hp1 | unfold count_start; lia].
  - rewrite step_not_start_outside by assumption. now apply IH.
Qed.

(** C9, as amended: for an input in which no start delimiter is followed by
    an end delimiter, the run with at most one start delimiter writes the
    header and right after it the footer; with two start delimiters or more
    it raises the error and writes nothing. *)
Theorem no_pair_no_content (input : string) (lines : list string)
    (output : string) :
  has_pair lines = false ->
  (count_start lines <= 1 ->
   main input lines output =
   (Returned 0%Z, output ++ (header (pipeline input) ++ footer))) /\
  (2 <= count_start lines ->
   exists e, main input lines output = (Raised e, output)).
Proof.
  intros Hp. split; intros Hc.
  - pose proof (main_layout input [] lines output eq_refl
                  (no_pair_tail_ok _ Hp Hc)) as H.
    simpl layout in H. rewrite H. unfold emitted. simpl.
    now rewrite append_nil_r.
  - destruct (no_pair_raises input lines 1 (init input) eq_refl Hp Hc)
      as [e He].
    exists e. now apply main_raised.
Qed.

(** A block that is opened and never closed, after an end delimiter. *)
Lemma no_pair_no_content_witness :
  main "core.mojom" [" */" ++ NL; "/**" ++ NL; " * text" ++ NL] "" =
  (Returned 0%Z, header "core" ++ footer).
Proof.
  apply (proj1 (no_pair_no_content "core.mojom"
                  [" */" ++ NL; "/**" ++ NL; " * text" ++ NL] "" eq_refl)).
  vm_compute. lia.
Defined.

(** C9, as stated, fails on two start delimiters: there is no pair of
    delimiters, the run raises the error and writes nothing. *)
Lemma no_pair_two_starts :
  has_pair ["/**" ++ NL; "/**" ++ NL] = false /\
  main "core.mojom" ["/**" ++ NL; "/**" ++ NL] "" =
    (Raised (SyntaxError "Expected end of comment"
               ("core.mojom", 2, 1, "/**" ++ NL)), "") /\
  written "core.mojom" ["/**" ++ NL; "/**" ++ NL] <>
    header (pipeline "core.mojom") ++ footer.
Proof.
  repeat split. vm_compute. discriminate.
Qed.

(** ** Blocks that are never closed *)

(** C4, as amended: when the last block of the input is opened (the lines
    before its start delimiter are read without error and leave no block
    open) and never closed (no end delimiter follows), the run returns
    without error if no start delimiter follows either, and it then writes
    exactly what it writes for the lines before that start delimiter: the
    text of the open block is dropped; if a start delimiter follows, the run
    raises the error and writes nothing. *)
Theorem unterminated_block_discarded (input : string) (pre : list string)
    (s : string) (rest : list string) (st : state) (output : string) :
  state_after input pre = inr st ->
  in_block st = false ->
  is_start s = true ->
  existsb is_end rest = false ->
  (count_start rest = 0 ->
   main input (pre ++ s :: rest)%list output =
     (Returned 0%Z, output ++ (data st ++ footer)) /\
   main input (pre ++ s :: rest)%list output = main input pre output /\
   state_after input (pre ++ s :: rest)%list =
     inr {| in_block := true; comment := s ++ Str.join rest;
            data := data st |}) /\
  (1 <= count_start rest ->
   exists e, main input (pre ++ s :: rest)%list output = (Raised e, output)).
Proof.
  intros Hpre Hb Hs Hend. split.
  - intros Hc. pose proof (no_delimiter_plain _ Hc Hend) as Hrest.
    assert (H : state_after input (pre ++ s :: rest)%list =
                inr {| in_block := true; comment := s ++ Str.join rest;
                       data := data st |}).
    { rewrite (state_after_app _ _ _ _ Hpre). simpl.
      rewrite step_start_outside by assumption.
      now rewrite loop_inside. }
    split; [|split; [|exact H]].
    + now rewrite (main_returned _ _ _ _ H).
    + now rewrite (main_returned _ _ _ _ H), (main_returned _ _ _ _ Hpre).
  - intros Hc.
    destruct (loop_inside_raises input rest (S (S (length pre)))
                {| in_block := true; comment := s; data := data st |}
                eq_refl Hend Hc) as [e He].
    exists e. apply main_raised.
    rewrite (state_after_app _ _ _ _ Hpre). simpl.
    now rewrite step_start_outside.
Qed.

(** A closed block, then a block left open at the end of the input. *)
Lemma unterminated_block_discarded_witness :
  main "core.mojom"
    ["/**" ++ NL; " */" ++ NL; "/**" ++ NL; " * lost" ++ NL] "" =
  (Returned 0%Z, header "core" ++ "/**" ++ NL ++ " */" ++ NL ++ NL ++ footer).
Proof.
  exact (proj1 (proj1 (unterminated_block_discarded "core.mojom"
                  ["/**" ++ NL; " */" ++ NL] ("/**" ++ NL) [" * lost" ++ NL]
                  {| in_block := false; comment := "/**" ++ NL ++ " */" ++ NL;
                     data := header "core" ++ "/**" ++ NL ++ " */" ++ NL ++ NL |}
                  "" eq_refl eq_refl eq_refl eq_refl) eq_refl)).
Defined.

(** C4, as stated, fails when a start delimiter follows the one that opened
    the last block: the block of line 1 is opened and never closed, and the
    run raises the error on line 3 and writes nothing.  It fails as well on
    the words [does not appear anywhere]: the text gathered for the open
    block of line 3 below, the line [/**], is in the output, written for the
    block of line 1. *)
Lemma unterminated_block_then_start :
  (state_after "core.mojom" [] = inr (init "core.mojom") /\
   in_block (init "core.mojom") = false /\
   is_start ("/**" ++ NL) = true /\
   existsb is_end [" * a" ++ NL; "/**" ++ NL] = false /\
   main "core.mojom" ["/**" ++ NL; " * a" ++ NL; "/**" ++ NL] "" =
     (Raised (SyntaxError "Expected end of comment"
                ("core.mojom", 3, 1, "/**" ++ NL)), "")) /\
  (state_after "core.mojom" ["/**" ++ NL; " */" ++ NL; "/**" ++ NL] =
     inr {| in_block := true; comment := "/**" ++ NL;
            data := header "core" ++ "/**" ++ NL ++ " */" ++ NL ++ NL |} /\
   Str.contains ("/**" ++ NL)
     (written "core.mojom" ["/**" ++ NL; " */" ++ NL; "/**" ++ NL]) = true).
Proof.
  repeat split.
Qed.

(** ** The output, line by line *)

Lemma splitlines_nonempty (c : ascii) (s : string) :
  splitlines_keepends (String c s) <> [].
Proof.
  simpl. destruct (Ascii.eqb c nl); [discriminate|].
  destruct (splitlines_keepends s); discriminate.
Qed.

(** After a text that ends with a newline, a new line starts. *)
Lemma splitlines_app_nl (t s : string) :
  splitlines_keepends ((t ++ NL) ++ s) =
  (splitlines_keepends (t ++ NL) ++ splitlines_keepends s)%list.
Proof.
  induction t as [|c t IH]; [reflexivity|].
  change ((String c t ++ NL) ++ s) with (String c ((t ++ NL) ++ s)).
  change (String c t ++ NL) with (String c (t ++ NL)).
  simpl. destruct (Ascii.eqb c nl).
  - now rewrite IH.
  - rewrite IH. destruct (splitlines_keepends (t ++ NL)) as [|h tl] eqn:E.
    + exfalso. destruct t; simpl in E.
      * discriminate.
      * revert E. apply splitlines_nonempty.
    + reflexivity.
Qed.

Lemma splitlines_proper (l s : string) :
  proper_line l = true ->
  splitlines_keepends (l ++ s) = l :: splitlines_keepends s.
Proof.
  induction l as [|c r IH]; [discriminate|].
  destruct r as [|d r'].
  - simpl. intros H. rewrite H. apply Ascii.eqb_eq in H. now subst.
  - intros H. change (proper_line (String c (String d r')))
      with (negb (Ascii.eqb c nl) && proper_line (String d r')) in H.
    apply andb_true_iff in H. destruct H as [Hc Hr].
    apply negb_true_iff in Hc.
    change (String c (String d r') ++ s) with (String c (String d r' ++ s)).
    cbn [splitlines_keepends]. rewrite Hc.
    now rewrite (IH Hr).
Qed.

Lemma splitlines_join_proper (ls : list string) (s : string) :
  forallb proper_line ls = true ->
  splitlines_keepends (Str.join ls ++ s) = (ls ++ splitlines_keepends s)%list.
Proof.
  induction ls as [|l ls IH]; simpl; [reflexivity|].
  intros H. apply andb_true_iff in H. destruct H as [Hl Hls].
  now rewrite append_assoc, splitlines_proper, IH.
Qed.

Lemma proper_line_cons (c : ascii) (s : string) :
  proper_line s = true ->
  proper_line (String c s) = negb (Ascii.eqb c nl).
Proof.
  destruct s as [|d s]; [discriminate|]. intros H.
  change (proper_line (String c (String d s)))
    with (negb (Ascii.eqb c nl) && proper_line (String d s)).
  now rewrite H, andb_true_r.
Qed.

(** [readlines] gives proper lines, but for a last line without
    terminator. *)
Lemma splitlines_file_lines (s : string) :
  file_lines (splitlines_keepends s) = true.
Proof.
  induction s as [|c r IH]; [reflexivity|].
  cbn [splitlines_keepends]. destruct (Ascii.eqb c nl) eqn:Hc.
  - destruct (splitlines_keepends r); [reflexivity | exact IH].
  - destruct (splitlines_keepends r) as [|h t].
    + cbn. now rewrite Hc.
    + destruct t as [|h' t].
      * cbn [file_lines] in *. apply orb_true_iff in IH.
        apply orb_true_iff. destruct IH as [IH|IH].
        -- left. now rewrite (proper_line_cons _ _ IH), Hc.
        -- right. cbn [no_newline String.eqb]. rewrite Hc.
           apply andb_true_iff in IH. now rewrite (proj1 IH).
      * cbn [file_lines] in *. apply andb_true_iff in IH.
        destruct IH as [Hh IH]. rewrite IH, andb_true_r.
        now rewrite (proper_line_cons _ _ Hh), Hc.
Qed.

Lemma readlines_file_lines (content : string) :
  file_lines (readlines content) = true.
Proof. apply splitlines_file_lines. Qed.

Lemma header_ends_nl (name : string) :
  exists t, header name = t ++ NL.
Proof.
  unfold header. rewrite <- !append_assoc. eexists. reflexivity.
Qed.

(** ** One block *)

(** C1, as amended: for an input made of one well-formed block of N lines
    and of plain lines before and after it, the run writes the header, those
    N lines one after the other as they are, one newline, and the footer;
    when each of the N lines ends with its terminator, that newline is a
    blank line: read line by line, the output is the lines of the header, the
    N lines, one blank line and the line of the footer.  (Without terminator
    on the end delimiter, which a last line of a file can lack, the newline
    ends that line instead, and no blank line follows.) *)
Theorem faithful_capture_one_block (input : string) (pre : list string)
    (b : block) (post : list string) (output : string) :
  forallb is_plain pre = true ->
  well_formed b = true ->
  forallb is_plain post = true ->
  main input (pre ++ block_lines b ++ post)%list output =
    (Returned 0%Z,
     output ++ ((header (pipeline input) ++ (block_text b ++ NL)) ++ footer)) /\
  (forallb proper_line (block_lines b) = true ->
   faithful_capture input pre b post).
Proof.
  intros Hpre Hb Hpost.
  assert (H : forall out,
             main input (pre ++ block_lines b ++ post)%list out =
             (Returned 0%Z,
              out ++ ((header (pipeline input) ++ (block_text b ++ NL))
                      ++ footer))).
  { intros out.
    pose proof (main_layout input [(pre, b)] post out) as H.
    cbn [layout segs_ok forallb fst snd] in H.
    rewrite H.
    - unfold emitted. simpl. now rewrite append_nil_r.
    - now rewrite (plain_gap_ok _ Hpre), Hb.
    - now apply gap_tail_ok, plain_gap_ok. }
  split; [apply H|].
  intros Hproper. unfold faithful_capture, written. rewrite H.
  cbn [snd]. change ("" ++ ?x) with x.
  destruct (header_ends_nl (pipeline input)) as [t Ht].
  rewrite !append_assoc. rewrite Ht at 1.
  rewrite splitlines_app_nl, <- Ht.
  unfold block_text. now rewrite splitlines_join_proper.
Qed.

(** The block of the scenario of the specification, between two lines. *)
Lemma faithful_capture_one_block_witness :
  faithful_capture "bar.mojom" ["line A" ++ NL]
    (mkBlock ("/**" ++ NL) [" * Hello." ++ NL] (" */" ++ NL))
    ["line B" ++ NL].
Proof.
  exact (proj2 (faithful_capture_one_block "bar.mojom" ["line A" ++ NL]
                  (mkBlock ("/**" ++ NL) [" * Hello." ++ NL] (" */" ++ NL))
                  ["line B" ++ NL] "" eq_refl eq_refl eq_refl) eq_refl).
Defined.

(** C1, as stated, fails when the end delimiter is a last line without
    terminator: the newline written after the block ends that line, and no
    blank line comes before the footer. *)
Lemma no_blank_line_after_last_line :
  forallb is_plain [] = true /\
  well_formed (mkBlock ("/**" ++ NL) [] " */") = true /\
  written "core.mojom" (block_lines (mkBlock ("/**" ++ NL) [] " */")) =
    header "core" ++ "/**" ++ NL ++ " */" ++ NL ++ footer /\
  ~ faithful_capture "core.mojom" [] (mkBlock ("/**" ++ NL) [] " */") [].
Proof.
  repeat split.
  unfold faithful_capture. vm_compute. discriminate.
Qed.

(** ** The error *)

Lemma step_raise_inv (input : string) (n : nat) (st : state) (l : string)
    (e : exn) :
  step input n st l = inl e ->
  is_start l = true /\ in_block st = true /\
  e = SyntaxError "Expected end of comment" (input, n, 1, l).
Proof.
  unfold step, is_start.
  destruct (Re.re_match regex_block_start l);
    destruct (Re.re_match regex_block_end l);
    destruct (in_block st); intros H; try discriminate H;
    injection H as <-; auto.
Qed.

(** After an iteration that leaves a block open, the line was the start
    delimiter that opened it, or a plain line inside it. *)
Lemma step_open_inv (input : string) (n : nat) (st st' : state) (l : string) :
  step input n st l = inr st' ->
  in_block st' = true ->
  (is_start l = true /\ in_block st = false) \/
  (is_end l = false /\ in_block st = true).
Proof.
  unfold step, is_start, is_end.
  destruct (Re.re_match regex_block_start l);
    destruct (Re.re_match regex_block_end l);
    destruct (in_block st) eqn:Hb; intros H; try discriminate H;
    injection H as <-; simpl; intros H'; try discriminate H'; auto.
  rewrite Hb in H'. discriminate H'.
Qed.

(** The loop raises at the first start delimiter it meets inside a block. *)
Lemma loop_raise_inv (input : string) (lines : list string) :
  forall (n : nat) (st : state) (e : exn),
    loop input n lines st = inl e ->
    exists pre l post st',
      lines = (pre ++ l :: post)%list /\
      loop input n pre st = inr st' /\
      in_block st' = true /\
      is_start l = true /\
      e = SyntaxError "Expected end of comment" (input, n + length pre, 1, l).
Proof.
  induction lines as [|l lines IH]; intros n st e H; [discriminate H|].
  simpl in H. destruct (step input n st l) as [e'|st1] eqn:Hstep.
  - injection H as <-.
    destruct (step_raise_inv _ _ _ _ _ Hstep) as (Hs & Hb & ->).
    exists [], l, lines, st. simpl. rewrite Nat.add_0_r. auto.
  - destruct (IH _ _ _ H) as (pre & l' & post & st' & -> & Hpre & Hb & Hs & ->).
    exists (l :: pre), l', post, st'.
    replace (n + length (l :: pre)) with (S n + length pre) by (simpl; lia).
    simpl. rewrite Hstep. auto.
Qed.

(** A block open after the loop was open before it, with no end delimiter
    since, or was opened by a start delimiter that no end delimiter
    follows. *)
Lemma loop_open_inv (input : string) (pre : list string) :
  forall (n : nat) (st st' : state),
    loop input n pre st = inr st' ->
    in_block st' = true ->
    (in_block st = true /\ forallb (fun l => negb (is_end l)) pre = true) \/
    exists a s1 m,
      pre = (a ++ s1 :: m)%list /\
      is_start s1 = true /\
      forallb (fun l => negb (is_end l)) m = true.
Proof.
  induction pre as [|l pre IH]; intros n st st' H Hb.
  - simpl in H. injection H as <-. now left.
  - simpl in H. destruct (step input n st l) as [e|st1] eqn:Hstep;
      [discriminate H|].
    destruct (IH _ _ _ H Hb) as [[Hb1 Hm] | (a & s1 & m & -> & Hs & Hm)].
    + destruct (step_open_inv _ _ _ _ _ Hstep Hb1) as [[Hs Hb0] | [He Hb0]].
      * right. exists [], l, pre. auto.
      * left. simpl. now rewrite He, Hm.
    + right. exists (l :: a), s1, m. auto.
Qed.

(** Inside a block, lines without end delimiter keep the block open, unless
    the loop raises. *)
Lemma loop_no_end (input : string) (m : list string) :
  forall (n : nat) (st : state),
    in_block st = true ->
    forallb (fun l => negb (is_end l)) m = true ->
    (exists e, loop input n m st = inl e) \/
    (exists st', loop input n m st = inr st' /\ in_block st' = true).
Proof.
  induction m as [|l m IH]; intros n st Hb Hm.
  - right. exists st. auto.
  - simpl in Hm. apply andb_true_iff in Hm. destruct Hm as [Hl Hm].
    apply negb_true_iff in Hl. simpl.
    destruct (is_start l) eqn:Hs.
    + left. rewrite step_start_inside by assumption. eexists. reflexivity.
    + rewrite step_plain_inside
        by (assumption || (unfold is_plain; now rewrite Hs, Hl)).
      now apply IH.
Qed.

(** A start delimiter in an open block makes the loop raise, from any
    state. *)
Lemma nested_raises (input : string) (a : list string) (s1 : string)
    (m : list string) (s2 : string) (z : list string) (n : nat) (st : state) :
  is_start s1 = true ->
  forallb (fun l => negb (is_end l)) m = true ->
  is_start s2 = true ->
  exists e, loop input n (a ++ s1 :: m ++ s2 :: z)%list st = inl e.
Proof.
  intros Hs1 Hm Hs2. rewrite loop_app.
  destruct (loop input n a st) as [e|st1]; [now exists e|].
  simpl. destruct (in_block st1) eqn:Hb1.
  - rewrite step_start_inside by assumption. eexists. reflexivity.
  - rewrite step_start_outside by assumption. rewrite loop_app.
    destruct (loop_no_end input m (S (n + length a))
                {| in_block := true; comment := s1; data := data st1 |}
                eq_refl Hm) as [[e ->] | (st2 & -> & Hb2)].
    + now exists e.
    + simpl. rewrite step_start_inside by assumption. eexists. reflexivity.
Qed.

Lemma app_prefix (A : Type) (l1 r1 l2 r2 : list A) :
  (l1 ++ r1 = l2 ++ r2)%list ->
  length l1 <= length l2 ->
  exists k, l2 = (l1 ++ k)%list.
Proof.
  revert l2. induction l1 as [|x l1 IH]; intros l2 H Hlen.
  - now exists l2.
  - destruct l2 as [|y l2]; [simpl in Hlen; lia|].
    simpl in H. injection H as -> H.
    destruct (IH l2 H) as [k ->]; [simpl in Hlen; lia|].
    now exists k.
Qed.

(** C2: the run raises the error exactly when some start delimiter stands
    in an open block (after an earlier start delimiter, with no end
    delimiter between the two); the error then carries the name of the
    input, the line number, counted from 1, of the first such start
    delimiter, the column 1 and the text of that line, and nothing is written
    to the output. *)
Theorem nested_open_error (input : string) (lines : list string)
    (output : string) :
  ((exists j s2, nested_open lines j s2) <->
   (exists e, fst (main input lines output) = Raised e)) /\
  (forall e, fst (main input lines output) = Raised e ->
     exists j s2,
       nested_open lines j s2 /\
       (forall j' s2', nested_open lines j' s2' -> j <= j') /\
       e = SyntaxError "Expected end of comment" (input, j, 1, s2) /\
       main input lines output = (Raised e, output)).
Proof.
  assert (Hraise : forall e, fst (main input lines output) = Raised e ->
            exists j s2,
              nested_open lines j s2 /\
              (forall j' s2', nested_open lines j' s2' -> j <= j') /\
              e = SyntaxError "Expected end of comment" (input, j, 1, s2) /\
              main input lines output = (Raised e, output)).
  { intros e He. unfold main in *.
    destruct (loop input 1 lines (init input)) as [e'|st] eqn:Hloop;
      [|discriminate He].
    simpl in He. injection He as ->.
    destruct (loop_raise_inv _ _ _ _ _ Hloop)
      as (pre & l & post & st' & -> & Hpre & Hb & Hs & ->).
    destruct (loop_open_inv _ _ _ _ _ Hpre Hb)
      as [[Hb0 _] | (a & s1 & m & -> & Hs1 & Hm)]; [discriminate Hb0|].
    exists (1 + length (a ++ s1 :: m)%list), l. repeat split.
    - exists a, s1, m, post. rewrite <- app_assoc. simpl.
      repeat split; auto. rewrite length_app. simpl. lia.
    - intros j' s2' (a' & s1' & m' & z' & E & Hs1' & Hm' & Hs2' & ->).
      destruct (Nat.le_gt_cases (1 + length (a ++ s1 :: m)%list)
                  (length a' + length m' + 2)) as [Hle|Hgt]; [exact Hle|].
      exfalso.
      assert (E' : ((a ++ s1 :: m) ++ l :: post =
                    (a' ++ s1' :: m' ++ [s2']) ++ z')%list).
      { rewrite E. rewrite <- !app_assoc. simpl. rewrite <- app_assoc.
        reflexivity. }
      symmetry in E'. apply app_prefix in E'.
      + destruct E' as [k Hk]. rewrite Hk in Hpre.
        rewrite <- app_assoc in Hpre. simpl in Hpre.
        rewrite <- app_assoc in Hpre. simpl in Hpre.
        destruct (nested_raises input a' s1' m' s2' k 1 (init input)
                    Hs1' Hm' Hs2') as [e He].
        rewrite He in Hpre. discriminate Hpre.
      + rewrite !length_app in *. simpl in *. rewrite length_app. simpl. lia. }
  split; [|exact Hraise]. split.
  - intros (j & s2 & a & s1 & m & z & -> & Hs1 & Hm & Hs2 & _).
    destruct (nested_raises input a s1 m s2 z 1 (init input) Hs1 Hm Hs2)
      as [e He].
    exists e. unfold main. now rewrite He.
  - intros [e He]. destruct (Hraise e He) as (j & s2 & H & _).
    now exists j, s2.
Qed.

(** The error of a block opened on line 4 inside the block of line 2. *)
Lemma nested_open_error_witness :
  main "core.mojom"
    ["x" ++ NL; "/**" ++ NL; " * a" ++ NL; "/**" ++ NL; " */" ++ NL] "" =
  (Raised (SyntaxError "Expected end of comment"
             ("core.mojom", 4, 1, "/**" ++ NL)), "").
Proof.
  destruct (proj2 (nested_open_error "core.mojom"
                     ["x" ++ NL; "/**" ++ NL; " * a" ++ NL; "/**" ++ NL;
                      " */" ++ NL] "")
              (SyntaxError "Expected end of comment"
                 ("core.mojom", 4, 1, "/**" ++ NL)) eq_refl)
    as (j & s2 & _ & _ & _ & H).
  exact H.
Defined.

(** ** The name in the header *)

Lemma contains_char_cons (sep c : ascii) (r : string) :
  Str.contains (String sep "") (String c r) =
  Ascii.eqb sep c || Str.contains (String sep "") r.
Proof.
  simpl. now rewrite andb_true_r.
Qed.

Lemma split_no_sep (sep : ascii) (s : string) :
  Str.contains (String sep "") s = false -> Str.split sep s = [s].
Proof.
  induction s as [|c r IH]; [reflexivity|].
  rewrite contains_char_cons. intros H.
  apply orb_false_iff in H. destruct H as [Hc Hr].
  simpl. rewrite Ascii.eqb_sym, Hc. now rewrite (IH Hr).
Qed.

Lemma split_nonempty (sep : ascii) (s : string) : Str.split sep s <> [].
Proof.
  destruct s as [|c r]; simpl; [discriminate|].
  destruct (Ascii.eqb c sep); [discriminate|].
  destruct (Str.split sep r); discriminate.
Qed.

Lemma last_cons_nonempty (x : string) (l : list string) :
  l <> [] -> last (x :: l) "" = last l "".
Proof.
  destruct l; [congruence | reflexivity].
Qed.

(** [split('/')[-1]] is the base name. *)
Lemma last_split_basename (input : string) :
  Str.last_item (Str.split "/" input) = basename input.
Proof.
  unfold Str.last_item.
  induction input as [|c r IH]; [reflexivity|].
  cbn [basename]. destruct (Str.contains "/" (String c r)) eqn:Hc.
  - rewrite <- IH. cbn [Str.split].
    destruct (Ascii.eqb c "/") eqn:E.
    + apply last_cons_nonempty, split_nonempty.
    + rewrite contains_char_cons, Ascii.eqb_sym, E in Hc. simpl in Hc.
      destruct r as [|d r']; [discriminate Hc|].
      destruct (Str.split "/" (String d r')) as [|h t] eqn:Es;
        [now apply split_nonempty in Es|].
      destruct t as [|h' t].
      * exfalso. clear IH. revert h Es Hc. generalize (String d r').
        intros s. induction s as [|x s IHs]; intros h Es Hc; [discriminate Hc|].
        rewrite contains_char_cons in Hc. simpl in Es.
        destruct (Ascii.eqb x "/") eqn:Ex.
        -- injection Es as _ Es. now apply split_nonempty in Es.
        -- rewrite Ascii.eqb_sym, Ex in Hc. simpl in Hc.
           destruct (Str.split "/" s) as [|h1 t1] eqn:Es1;
             [now apply split_nonempty in Es1|].
           injection Es as _ ->. now apply (IHs h1).
      * reflexivity.
  - now rewrite (split_no_sep _ _ Hc).
Qed.

(** Where [old] does not occur, [replace] changes nothing. *)
Lemma replace_absent (old new s : string) :
  Str.contains old s = false -> Str.replace old new s = s.
Proof.
  unfold Str.replace. induction s as [|c r IH]; [reflexivity|].
  intros H. cbn [Str.contains] in H.
  apply orb_false_iff in H. destruct H as [H1 H2].
  cbn [Str.replace_from]. rewrite H1. now rewrite (IH H2).
Qed.

(** A text without the character [sep] that is no prefix of [r] is no
    prefix of [r] followed by [sep] and more. *)
Lemma startswith_app_sep (sep : ascii) (q r t : string) :
  Str.contains (String sep "") q = false ->
  Str.startswith q r = false ->
  Str.startswith q (r ++ String sep t) = false.
Proof.
  revert r. induction q as [|a q IH]; intros r Hq H; [discriminate H|].
  rewrite contains_char_cons in Hq.
  apply orb_false_iff in Hq. destruct Hq as [Ha Hq].
  destruct r as [|b r]; simpl in *.
  - now rewrite Ascii.eqb_sym, Ha.
  - destruct (Ascii.eqb a b); [|reflexivity]. simpl in *. now apply IH.
Qed.

(** No occurrence of [.mojom] starts in a text and ends in a [.mojom] that
    follows it. *)
Lemma mojom_no_straddle (c : ascii) (r : string) :
  Str.startswith ".mojom" (String c r) = false ->
  Str.startswith ".mojom" (String c r ++ ".mojom") = false.
Proof.
  change (String c r ++ ".mojom") with (String c (r ++ ".mojom")).
  change (Str.startswith ".mojom" (String c r))
    with (Ascii.eqb "." c && Str.startswith "mojom" r).
  change (Str.startswith ".mojom" (String c (r ++ ".mojom")))
    with (Ascii.eqb "." c && Str.startswith "mojom" (r ++ ".mojom")).
  destruct (Ascii.eqb "." c); [|reflexivity].
  rewrite !andb_true_l. now apply startswith_app_sep.
Qed.

(** [replace] takes the suffix [.mojom] off a text in which [.mojom] does
    not occur. *)
Lemma replace_mojom_suffix (stem : string) :
  Str.contains ".mojom" stem = false ->
  Str.replace ".mojom" "" (stem ++ ".mojom") = stem.
Proof.
  unfold Str.replace. induction stem as [|c r IH]; [reflexivity|].
  intros H. cbn [Str.contains] in H.
  apply orb_false_iff in H. destruct H as [H1 H2].
  apply mojom_no_straddle in H1.
  change (String c r ++ ".mojom") with (String c (r ++ ".mojom")) in *.
  cbn [Str.replace_from]. rewrite H1. now rewrite (IH H2).
Qed.

Lemma length_append (s t : string) :
  String.length (s ++ t) = String.length s + String.length t.
Proof.
  induction s as [|c s IH]; simpl; [reflexivity | now rewrite IH].
Qed.

(** A text that ends with [suf] is some text followed by [suf], and that
    text is what [removesuffix] keeps. *)
Lemma endswith_split (suf s : string) :
  Str.endswith suf s = true ->
  exists t,
    s = t ++ suf /\
    substring 0 (String.length s - String.length suf) s = t.
Proof.
  induction s as [|c s IH]; cbn [Str.endswith]; intros H.
  - rewrite orb_false_r in H. apply String.eqb_eq in H. subst suf.
    exists "". split; reflexivity.
  - destruct (String.eqb suf (String c s)) eqn:E.
    + apply String.eqb_eq in E. subst suf. exists "".
      split; [reflexivity|]. now rewrite Nat.sub_diag.
    + simpl in H. destruct (IH H) as (t & Hs & Hsub).
      exists (String c t). split; [simpl; now rewrite <- Hs|].
      assert (Hlen : String.length suf <= String.length s).
      { rewrite Hs, length_append. lia. }
      assert (Hk : String.length (String c s) - String.length suf =
                   S (String.length s - String.length suf)).
      { change (String.length (String c s)) with (S (String.length s)). lia. }
      rewrite Hk. cbn [substring]. now rewrite Hsub.
Qed.

(** X14: the name in the header is the name of the specification, the base
    name of the input path without its suffix [.mojom], whenever that name
    holds no [.mojom] itself; [a/b/foo.mojom] gives [foo]. *)
Theorem name_agrees_with_suffix_removal (input : string) :
  Str.contains ".mojom" (spec_name input) = false ->
  pipeline input = spec_name input.
Proof.
  unfold spec_name, removesuffix, pipeline. rewrite last_split_basename.
  destruct (Str.endswith ".mojom" (basename input)) eqn:E.
  - destruct (endswith_split _ _ E) as (t & Hs & Hsub).
    rewrite Hsub. rewrite Hs at 1. apply replace_mojom_suffix.
  - apply replace_absent.
Qed.

Lemma name_agrees_with_suffix_removal_witness :
  pipeline "a/b/foo.mojom" = "foo".
Proof.
  exact (name_agrees_with_suffix_removal "a/b/foo.mojom" eq_refl).
Defined.

(** C3: the name in the header is meant to be the base name of the input
    path without its suffix [.mojom]: the header names the input file as
    the name followed by [.mojom].  The code takes out every [.mojom] of the
    base name instead.  On [a/b/my.mojom_v2.mojom] the base name is
    [my.mojom_v2.mojom] and the claim gives [my.mojom_v2]; the code gives
    [my_v2], and the header then names a file [my_v2.mojom] that is not the
    input file. *)
Lemma name_not_suffix_removal :
  basename "a/b/my.mojom_v2.mojom" = "my.mojom_v2.mojom" /\
  spec_name "a/b/my.mojom_v2.mojom" = "my.mojom_v2" /\
  pipeline "a/b/my.mojom_v2.mojom" = "my_v2" /\
  pipeline "a/b/my.mojom_v2.mojom" <> spec_name "a/b/my.mojom_v2.mojom" /\
  pipeline "a/b/my.mojom_v2.mojom" ++ ".mojom" <>
    basename "a/b/my.mojom_v2.mojom" /\
  spec_name "a/b/my.mojom_v2.mojom" ++ ".mojom" =
    basename "a/b/my.mojom_v2.mojom".
Proof.
  repeat split; vm_compute; discriminate.
Qed.

(** ** Every run *)

(** X1: whatever the input, the run raises the error and leaves the output
    as it was, or the input is laid out as blocks, gaps and a tail and the run
    adds the header, the text of the blocks and the footer to the output. *)
Theorem main_cases (input : string) (lines : list string) (output : string) :
  (exists e, main input lines output = (Raised e, output)) \/
  (exists segs tail,
     lines = layout segs tail /\
     segs_ok segs = true /\
     tail_ok tail = true /\
     main input lines output =
     (Returned 0%Z,
      output ++ ((header (pipeline input) ++ emitted segs) ++ footer))).
Proof.
  destruct (state_after input lines) as [e|st] eqn:H.
  - left. exists e. now apply main_raised.
  - right.
    destruct (returned_layout input (length lines) lines 1 (init input) st
                (Nat.le_refl _) eq_refl H) as (segs & tail & -> & Hs & Ht).
    exists segs, tail. repeat split; auto. now apply main_layout.
Qed.

(** X2: the error tells where it was raised: its line number, counted from 1,
    is that of a line of the input after the first, and its text is that
    line, a start delimiter. *)
Theorem error_position (input : string) (lines : list string) (output : string)
    (msg file : string) (n col : nat) (text : string) :
  fst (main input lines output) = Raised (SyntaxError msg (file, n, col, text)) ->
  msg = "Expected end of comment" /\ file = input /\ col = 1 /\
  2 <= n <= length lines /\
  nth_error lines (n - 1) = Some text /\
  is_start text = true.
Proof.
  unfold main.
  destruct (loop input 1 lines (init input)) as [e|st] eqn:H; [|discriminate].
  simpl. intros E. injection E as ->.
  destruct (loop_raise_inv _ _ _ _ _ H)
    as (pre & l & post & st' & -> & Hpre & Hb & Hs & E).
  injection E as -> -> -> -> ->.
  destruct (loop_open_inv _ _ _ _ _ Hpre Hb)
    as [[Hb0 _] | (a & s1 & m & -> & _ & _)]; [discriminate Hb0|].
  repeat split; auto.
  - rewrite length_app. simpl. lia.
  - rewrite !length_app. simpl. lia.
  - match goal with
    | |- nth_error _ ?k = _ =>
        replace k with (length (a ++ s1 :: m)%list) by (simpl; lia)
    end.
    rewrite nth_error_app2 by lia.
    replace (length (a ++ s1 :: m)%list - length (a ++ s1 :: m)%list)
      with 0 by lia.
    reflexivity.
Qed.

Lemma error_position_witness :
  nth_error ["/**" ++ NL; " * a" ++ NL; "/**" ++ NL] (3 - 1) =
  Some ("/**" ++ NL).
Proof.
  exact (proj1 (proj2 (proj2 (proj2 (proj2
           (error_position "core.mojom"
              ["/**" ++ NL; " * a" ++ NL; "/**" ++ NL] ""
              "Expected end of comment" "core.mojom" 3 1 ("/**" ++ NL)
              eq_refl)))))).
Defined.

(** ** Longer inputs *)

(** X3: an error does not depend on the lines after the one it is raised on: a
    run that raises on some lines raises the same error when more lines
    follow. *)
Theorem raise_stable (input : string) (pre post : list string)
    (output : string) (e : exn) :
  main input pre output = (Raised e, output) ->
  main input (pre ++ post)%list output = (Raised e, output).
Proof.
  unfold main. rewrite loop_app.
  destruct (loop input 1 pre (init input)) as [e'|st]; [|discriminate].
  now intros H.
Qed.

Lemma raise_stable_witness :
  main "core.mojom" ["/**" ++ NL; "/**" ++ NL; " */" ++ NL] "" =
  (Raised (SyntaxError "Expected end of comment"
             ("core.mojom", 2, 1, "/**" ++ NL)), "").
Proof.
  exact (raise_stable "core.mojom" ["/**" ++ NL; "/**" ++ NL] [" */" ++ NL] ""
           _ eq_refl).
Defined.

Lemma step_data_grows (input : string) (n : nat) (st st' : state) (l : string) :
  step input n st l = inr st' -> exists extra, data st' = data st ++ extra.
Proof.
  unfold step.
  destruct (Re.re_match regex_block_start l);
    destruct (Re.re_match regex_block_end l);
    destruct (in_block st); intros H; try discriminate H;
    injection H as <-; simpl;
    try (exists ""; now rewrite append_nil_r);
    eexists; reflexivity.
Qed.

Lemma loop_data_grows (input : string) (lines : list string) :
  forall (n : nat) (st st' : state),
    loop input n lines st = inr st' ->
    exists extra, data st' = data st ++ extra.
Proof.
  induction lines as [|l lines IH]; intros n st st' H.
  - injection H as <-. exists "". now rewrite append_nil_r.
  - simpl in H. destruct (step input n st l) as [e|st1] eqn:Hs;
      [discriminate H|].
    destruct (step_data_grows _ _ _ _ _ Hs) as [x1 H1].
    destruct (IH _ _ _ H) as [x2 H2].
    exists (x1 ++ x2). now rewrite H2, H1, append_assoc.
Qed.

(** X4: text is only ever added to [data]: what the loop has gathered after
    some lines is the start of what it has gathered after more lines. *)
Theorem data_only_grows (input : string) (pre post : list string)
    (st st' : state) :
  state_after input pre = inr st ->
  state_after input (pre ++ post)%list = inr st' ->
  exists extra, data st' = data st ++ extra.
Proof.
  intros Hpre H. rewrite (state_after_app _ _ _ _ Hpre) in H.
  exact (loop_data_grows _ _ _ _ _ H).
Qed.

Lemma data_only_grows_witness :
  exists extra,
    header "core" ++ "/**" ++ NL ++ " */" ++ NL ++ NL =
    header "core" ++ extra.
Proof.
  exact (data_only_grows "core.mojom" ["x" ++ NL] ["/**" ++ NL; " */" ++ NL]
           (init "core.mojom")
           {| in_block := false; comment := "/**" ++ NL ++ " */" ++ NL;
              data := header "core" ++ "/**" ++ NL ++ " */" ++ NL ++ NL |}
           eq_refl eq_refl).
Defined.

(** ** Reading the lines *)

Lemma splitlines_join (s : string) :
  Str.join (splitlines_keepends s) = s.
Proof.
  induction s as [|c r IH]; [reflexivity|].
  cbn [splitlines_keepends]. destruct (Ascii.eqb c nl) eqn:Hc.
  - apply Ascii.eqb_eq in Hc. subst c. cbn [Str.join]. now rewrite IH.
  - destruct (splitlines_keepends r) as [|h t].
    + simpl in IH. now subst r.
    + cbn [Str.join] in *. simpl. now rewrite IH.
Qed.

Lemma contains_char_app (sep : ascii) (s t : string) :
  Str.contains (String sep "") (s ++ t) =
  Str.contains (String sep "") s || Str.contains (String sep "") t.
Proof.
  induction s as [|c s IH].
  - simpl. destruct t; reflexivity.
  - change (String c s ++ t) with (String c (s ++ t)).
    now rewrite !contains_char_cons, IH, orb_assoc.
Qed.

Lemma no_cr_cons (c : ascii) (s : string) :
  no_cr (String c s) = negb (Ascii.eqb cr c) && no_cr s.
Proof.
  unfold no_cr. now rewrite contains_char_cons, negb_orb.
Qed.

(** Text without carriage return is read as it is. *)
Lemma universal_newlines_no_cr (s : string) :
  no_cr s = true -> universal_newlines s = s.
Proof.
  induction s as [|c r IH]; [reflexivity|].
  rewrite no_cr_cons. intros H. apply andb_true_iff in H.
  destruct H as [Hc Hr]. apply negb_true_iff in Hc.
  cbn [universal_newlines]. rewrite Ascii.eqb_sym, Hc. now rewrite IH.
Qed.

Lemma universal_newlines_gives_no_cr (k : nat) :
  forall s, String.length s <= k -> no_cr (universal_newlines s) = true.
Proof.
  induction k as [|k IH]; intros s Hlen.
  - destruct s; [reflexivity | simpl in Hlen; lia].
  - destruct s as [|c r]; [reflexivity|].
    simpl in Hlen. cbn [universal_newlines].
    destruct (Ascii.eqb c cr) eqn:Hc.
    + destruct r as [|d r']; [reflexivity|].
      destruct (Ascii.eqb d nl).
      * rewrite no_cr_cons. rewrite IH by (simpl in Hlen; lia). reflexivity.
      * rewrite no_cr_cons. rewrite IH by lia. reflexivity.
    + rewrite no_cr_cons, Ascii.eqb_sym, Hc. rewrite IH by lia. reflexivity.
Qed.

(** X5: the lines read from a file, one after the other, are the content of the
    file with its line ends translated: none is lost, none is changed; they
    are the content itself when it holds no carriage return, and no line
    holds one. *)
Theorem readlines_round_trip (content : string) :
  Str.join (readlines content) = universal_newlines content /\
  no_cr (Str.join (readlines content)) = true /\
  (no_cr content = true -> Str.join (readlines content) = content).
Proof.
  unfold readlines. rewrite splitlines_join. repeat split.
  - now apply (universal_newlines_gives_no_cr (String.length content)).
  - apply universal_newlines_no_cr.
Qed.

Lemma readlines_round_trip_witness :
  Str.join (readlines ("/**" ++ NL ++ " */")) = "/**" ++ NL ++ " */".
Proof.
  exact (proj2 (proj2 (readlines_round_trip ("/**" ++ NL ++ " */"))) eq_refl).
Defined.

Lemma splitlines_no_newline (l : string) :
  no_newline l = true -> l <> "" -> splitlines_keepends l = [l].
Proof.
  induction l as [|c r IH]; [congruence|].
  intros H _. cbn [no_newline] in H. apply andb_true_iff in H.
  destruct H as [Hc Hr]. apply negb_true_iff in Hc.
  cbn [splitlines_keepends]. rewrite Hc.
  destruct r as [|d r']; [reflexivity|].
  rewrite IH by (assumption || discriminate). reflexivity.
Qed.

Lemma splitlines_join_file_lines (ls : list string) :
  file_lines ls = true -> splitlines_keepends (Str.join ls) = ls.
Proof.
  induction ls as [|l ls IH]; [reflexivity|].
  cbn [file_lines Str.join]. destruct ls as [|l' ls].
  - intros H. apply orb_true_iff in H. cbn [Str.join].
    destruct H as [H|H].
    + now rewrite splitlines_proper.
    + apply andb_true_iff in H. destruct H as [Hn He].
      rewrite append_nil_r. apply splitlines_no_newline; [exact Hn|].
      intros ->. discriminate He.
  - intros H. apply andb_true_iff in H. destruct H as [Hp Hr].
    rewrite splitlines_proper by assumption. now rewrite (IH Hr).
Qed.

Lemma no_cr_join (ls : list string) :
  forallb no_cr ls = true -> no_cr (Str.join ls) = true.
Proof.
  induction ls as [|l ls IH]; [reflexivity|].
  simpl. intros H. apply andb_true_iff in H. destruct H as [Hl Hr].
  unfold no_cr in *. rewrite contains_char_app, negb_orb.
  now rewrite Hl, (IH Hr).
Qed.

(** X6: lines written one after the other to a file are read back as they are:
    lines that each end with their terminator, the last one possibly without
    it, none empty and none with a carriage return. *)
Theorem readlines_of_lines (ls : list string) :
  file_lines ls = true ->
  forallb no_cr ls = true ->
  readlines (Str.join ls) = ls.
Proof.
  intros Hf Hc. unfold readlines.
  rewrite universal_newlines_no_cr by now apply no_cr_join.
  now apply splitlines_join_file_lines.
Qed.

Lemma readlines_of_lines_witness :
  readlines (Str.join ["/**" ++ NL; " * a" ++ NL; " */"]) =
  ["/**" ++ NL; " * a" ++ NL; " */"].
Proof.
  exact (readlines_of_lines ["/**" ++ NL; " * a" ++ NL; " */"]
           eq_refl eq_refl).
Defined.

Lemma universal_newlines_to_crlf (s : string) :
  no_cr s = true -> universal_newlines (to_crlf s) = s.
Proof.
  induction s as [|c r IH]; [reflexivity|].
  rewrite no_cr_cons. intros H. apply andb_true_iff in H.
  destruct H as [Hc Hr]. apply negb_true_iff in Hc.
  cbn [to_crlf]. destruct (Ascii.eqb c nl) eqn:Hn.
  - apply Ascii.eqb_eq in Hn. subst c.
    cbn [universal_newlines]. rewrite !Ascii.eqb_refl. now rewrite IH.
  - cbn [universal_newlines]. rewrite Ascii.eqb_sym, Hc. now rewrite IH.
Qed.

(** X8: a file with Windows line ends gives what the same file with Unix line
    ends gives: the delimiters are found in it, and the lines are written
    with Unix line ends. *)
Theorem main_file_crlf (input content output : string) :
  no_cr content = true ->
  main_file input (to_crlf content) output = main_file input content output.
Proof.
  intros H. unfold main_file, readlines.
  now rewrite universal_newlines_to_crlf, universal_newlines_no_cr.
Qed.

Lemma main_file_crlf_witness :
  main_file "core.mojom"
    ("/**" ++ String cr NL ++ " * a" ++ String cr NL ++ " */" ++ String cr NL) "" =
  (Returned 0%Z,
   header "core" ++ "/**" ++ NL ++ " * a" ++ NL ++ " */" ++ NL ++ NL ++ footer).
Proof.
  exact (main_file_crlf "core.mojom"
           ("/**" ++ NL ++ " * a" ++ NL ++ " */" ++ NL) "" eq_refl).
Defined.

(** ** The name and the directory *)

Lemma basename_no_slash (path : string) :
  Str.contains "/" (basename path) = false.
Proof.
  induction path as [|c r IH]; [reflexivity|].
  cbn [basename]. destruct (Str.contains "/" (String c r)) eqn:H; assumption.
Qed.

Lemma basename_fixed (file : string) :
  Str.contains "/" file = false -> basename file = file.
Proof.
  destruct file as [|c r]; [reflexivity|].
  intros H. cbn [basename]. now rewrite H.
Qed.

Lemma basename_dir (dir file : string) :
  Str.contains "/" file = false ->
  basename (dir ++ "/" ++ file) = file.
Proof.
  intros H. induction dir as [|c dir IH].
  - change ("" ++ "/" ++ file) with (String "/" file).
    cbn [basename]. rewrite contains_char_cons. simpl.
    now apply basename_fixed.
  - change (String c dir ++ "/" ++ file) with (String c (dir ++ "/" ++ file)).
    cbn [basename]. rewrite contains_char_cons, contains_char_app.
    change ("/" ++ file) with (String "/" file).
    rewrite (contains_char_cons "/" "/"). simpl.
    rewrite !orb_true_r. exact IH.
Qed.

(** X9: the directories of the input path play no part in the name: a path to a
    file gives the name the file alone gives. *)
Theorem pipeline_ignores_directory (dir file : string) :
  Str.contains "/" file = false ->
  pipeline (dir ++ "/" ++ file) = pipeline file.
Proof.
  intros H. unfold pipeline. rewrite !last_split_basename.
  now rewrite basename_dir, basename_fixed.
Qed.

Lemma pipeline_ignores_directory_witness :
  pipeline ("include/libcamera/ipa" ++ "/" ++ "vimc.mojom") =
  pipeline "vimc.mojom".
Proof.
  exact (pipeline_ignores_directory "include/libcamera/ipa" "vimc.mojom"
           eq_refl).
Defined.

Lemma replace_from_no_char (sep : ascii) (old : string) (s : string) :
  forall k,
    Str.contains (String sep "") s = false ->
    Str.contains (String sep "") (Str.replace_from old "" k s) = false.
Proof.
  induction s as [|c r IH]; intros k H; [reflexivity|].
  rewrite contains_char_cons in H. apply orb_false_iff in H.
  destruct H as [Hc Hr].
  cbn [Str.replace_from]. destruct k as [|k]; [|now apply IH].
  destruct (Str.startswith old (String c r)).
  - now apply IH.
  - rewrite contains_char_cons, Hc. now apply IH.
Qed.

(** X10: the name holds no ['/'], whatever the input path: the file named after
    it in the header lies in no directory. *)
Theorem pipeline_no_slash (input : string) :
  Str.contains "/" (pipeline input) = false.
Proof.
  unfold pipeline, Str.replace. rewrite last_split_basename.
  apply replace_from_no_char, basename_no_slash.
Qed.

(** ** Reading the output again *)

Lemma header_join (name : string) :
  header name = Str.join (header_lines name).
Proof.
  unfold header, header_lines. cbn [Str.join].
  now rewrite !append_assoc, append_nil_r.
Qed.

Lemma no_newline_app (s t : string) :
  no_newline (s ++ t) = no_newline s && no_newline t.
Proof.
  induction s as [|c s IH]; [reflexivity|].
  simpl. now rewrite IH, andb_assoc.
Qed.

Lemma proper_app_nl (s : string) :
  no_newline s = true -> proper_line (s ++ NL) = true.
Proof.
  induction s as [|c s IH]; [reflexivity|].
  cbn [no_newline]. intros H. apply andb_true_iff in H. destruct H as [Hc Hs].
  change (String c s ++ NL) with (String c (s ++ NL)).
  rewrite proper_line_cons by now apply IH. exact Hc.
Qed.

Lemma header_lines_proper (name : string) :
  no_newline name = true ->
  forallb proper_line (header_lines name) = true.
Proof.
  intros H. unfold header_lines. cbn [forallb].
  rewrite (proper_app_nl (" * " ++ name ++ _)).
  - reflexivity.
  - rewrite !no_newline_app, H. reflexivity.
Qed.

Lemma header_lines_gap (name : string) :
  gap_ok (header_lines name) = true.
Proof. reflexivity. Qed.

Lemma emitted_join (segs : list (list string * block)) :
  emitted segs = Str.join (emitted_lines segs).
Proof.
  unfold emitted, emitted_lines.
  induction segs as [|[g b] segs IH]; [reflexivity|].
  cbn [map concat Str.join snd]. rewrite join_app, join_app, IH.
  unfold block_text. cbn [Str.join]. now rewrite append_nil_r, append_assoc.
Qed.

Lemma emitted_lines_proper (segs : list (list string * block)) :
  blocks_proper segs = true ->
  forallb proper_line (emitted_lines segs) = true.
Proof.
  unfold blocks_proper, emitted_lines.
  induction segs as [|[g b] segs IH]; [reflexivity|].
  cbn [map concat forallb snd]. intros H. apply andb_true_iff in H.
  destruct H as [Hb Hs].
  rewrite !forallb_app, Hb, (IH Hs). reflexivity.
Qed.

Lemma loop_emitted_lines (input : string) (segs : list (list string * block)) :
  forall (n : nat) (st : state),
    segs_ok segs = true ->
    in_block st = false ->
    exists st',
      loop input n (emitted_lines segs) st = inr st' /\
      in_block st' = false /\
      data st' = data st ++ emitted segs.
Proof.
  unfold emitted_lines, emitted.
  induction segs as [|[g b] segs IH]; intros n st Hok Hb.
  - exists st. simpl. now rewrite append_nil_r.
  - cbn [segs_ok forallb fst snd] in Hok.
    apply andb_true_iff in Hok. destruct Hok as [Hgb Hok].
    apply andb_true_iff in Hgb. destruct Hgb as [_ Hw].
    cbn [map concat snd Str.join].
    rewrite loop_app, loop_app, loop_block by assumption.
    cbn [loop]. rewrite step_not_start_outside by reflexivity.
    match goal with
    | |- context [loop input ?k _ ?s] =>
        destruct (IH k s Hok eq_refl) as (st' & Hl & Hb' & Hd)
    end.
    exists st'. repeat split; [exact Hl | exact Hb' |].
    rewrite Hd. simpl. now rewrite !append_assoc.
Qed.

(** X11: the script run on the file it wrote, under an input path that
    gives the same name as the first (the same path, for one), writes that
    file again: the delimiters of the header are met outside a block, every
    block is found again, and the blank lines and the footer are left out.
    This holds when the lines of the blocks end with their terminator, the
    name holds no newline and the file written holds no carriage return.
    (Under another name, that of the file written for one, the header
    differs.) *)
Theorem extraction_idempotent (input input2 : string)
    (segs : list (list string * block)) (tail : list string) (output : string) :
  segs_ok segs = true ->
  tail_ok tail = true ->
  blocks_proper segs = true ->
  no_newline (pipeline input) = true ->
  no_cr (written input (layout segs tail)) = true ->
  pipeline input2 = pipeline input ->
  main_file input2 (written input (layout segs tail)) output =
  main input (layout segs tail) output.
Proof.
  intros Hok Ht Hp Hn Hc Hname.
  unfold main_file, readlines. rewrite universal_newlines_no_cr by exact Hc.
  unfold written. rewrite !main_layout by assumption.
  cbn [snd]. change ("" ++ ?x) with x.
  assert (E : (header (pipeline input) ++ emitted segs) ++ footer =
              Str.join (header_lines (pipeline input) ++
                        emitted_lines segs ++ [footer])%list ++ "").
  { rewrite !join_app, <- header_join, <- emitted_join. cbn [Str.join].
    now rewrite !append_nil_r, append_assoc. }
  rewrite E, splitlines_join_proper.
  - cbn [splitlines_keepends]. rewrite app_nil_r.
    unfold main. rewrite loop_app.
    rewrite loop_outside by (apply header_lines_gap || reflexivity).
    rewrite loop_app.
    destruct (loop_emitted_lines input2 segs
                (1 + length (header_lines (pipeline input)))
                (init input2) Hok eq_refl) as (st' & -> & Hb' & Hd).
    rewrite loop_outside by (reflexivity || assumption).
    rewrite <- E, Hd. unfold init. cbn [data]. now rewrite Hname.
  - rewrite !forallb_app, header_lines_proper, emitted_lines_proper
      by assumption.
    reflexivity.
Qed.

(** The file written for [bar.mojom], given again under a path to a file of
    that name. *)
Lemma extraction_idempotent_witness :
  main_file "gen/bar.mojom"
    (header "bar" ++ "/**" ++ NL ++ " * Hello." ++ NL ++ " */" ++ NL ++ NL
       ++ footer) "" =
  (Returned 0%Z,
   header "bar" ++ "/**" ++ NL ++ " * Hello." ++ NL ++ " */" ++ NL ++ NL
     ++ footer).
Proof.
  exact (extraction_idempotent "bar.mojom" "gen/bar.mojom"
           [(["line A" ++ NL],
             mkBlock ("/**" ++ NL) [" * Hello." ++ NL] (" */" ++ NL))]
           ["line B" ++ NL] ""
           eq_refl eq_refl eq_refl eq_refl eq_refl eq_refl).
Defined.

(** ** The input path and the lines *)

(** X12: the output depends on the input path through the name only: two
    paths that give the same name give the same output on the same lines. *)
Theorem written_depends_on_name (input1 input2 : string) (lines : list string) :
  pipeline input1 = pipeline input2 ->
  written input1 lines = written input2 lines.
Proof.
  intros Hname. unfold written.
  destruct (state_after input1 lines) as [e1|st1] eqn:H1;
    destruct (state_after input2 lines) as [e2|st2] eqn:H2.
  - now rewrite (main_raised _ _ _ _ H1), (main_raised _ _ _ _ H2).
  - exfalso.
    destruct (returned_layout input2 (length lines) lines 1 (init input2) st2
                (Nat.le_refl _) eq_refl H2) as (segs & tail & -> & Hs & Ht).
    pose proof (main_layout input1 segs tail "" Hs Ht) as E.
    rewrite (main_raised _ _ _ _ H1) in E. discriminate E.
  - exfalso.
    destruct (returned_layout input1 (length lines) lines 1 (init input1) st1
                (Nat.le_refl _) eq_refl H1) as (segs & tail & -> & Hs & Ht).
    pose proof (main_layout input2 segs tail "" Hs Ht) as E.
    rewrite (main_raised _ _ _ _ H2) in E. discriminate E.
  - destruct (returned_layout input1 (length lines) lines 1 (init input1) st1
                (Nat.le_refl _) eq_refl H1) as (segs & tail & -> & Hs & Ht).
    now rewrite !main_layout, Hname by assumption.
Qed.

Lemma written_depends_on_name_witness :
  written "a/core.mojom" ["/**" ++ NL; " */" ++ NL] =
  written "b/c/core.mojom.mojom" ["/**" ++ NL; " */" ++ NL].
Proof.
  exact (written_depends_on_name "a/core.mojom" "b/c/core.mojom.mojom"
           ["/**" ++ NL; " */" ++ NL] eq_refl).
Defined.

(** X13: no line is both a start delimiter and an end delimiter: the two
    tests of the loop never hold together, and a line that opens a block
    never closes one. *)
Theorem delimiters_disjoint (line : string) :
  is_start line && is_end line = false.
Proof.
  destruct (is_start line) eqn:Hs; [|reflexivity].
  now rewrite (start_not_end _ Hs).
Qed.

(** X7: the lines read from a file are never empty; each but the last ends
    with the one newline it holds, and the last does so or holds none. *)
Theorem readlines_shape (content : string) :
  file_lines (readlines content) = true.
Proof.
  unfold readlines. apply splitlines_file_lines.
Qed.
